(** * AlignAI front end: a shallow embedding of the React client

    The development follows the source files of the client:
    [services/api.js] (module [Api]), the analysis context provider with its
    reducer (module [AnalysisContext]), [HistoryPage], [AnalysisResults],
    [SkillGapChart] and [DocumentUpload].  The skill classification of the
    analysis engine, which the client only consumes, is modelled in module
    [Engine]. *)

From Stdlib Require Import QArith Qround Lqa Ascii String Sorted.
From stdpp Require Import base gmap strings list pretty.

Local Open Scope string_scope.

(** ** JavaScript values *)

Module Js.

(** A JS number: the finite doubles are rationals, and comparison on them is
    the comparison of rationals; [NaN] compares false with everything. *)
Inductive number : Type :=
  | NaN
  | PosInf
  | NegInf
  | Fin (q : Q).

(** [a >= b] *)
Definition ge (a b : number) : bool :=
  match a, b with
  | NaN, _ | _, NaN => false
  | PosInf, _ => true
  | _, NegInf => true
  | NegInf, _ => false
  | _, PosInf => false
  | Fin p, Fin q => Qle_bool q p
  end.

(** [a < b] *)
Definition lt (a b : number) : bool :=
  match a, b with
  | NaN, _ | _, NaN => false
  | PosInf, _ => false
  | _, NegInf => false
  | NegInf, _ => true
  | _, PosInf => true
  | Fin p, Fin q => negb (Qle_bool q p)
  end.

(** [a > b] *)
Definition gt (a b : number) : bool := lt b a.

(** Numeric literals of the source. *)
Definition lit (z : Z) : number := Fin (inject_Z z).

(** *** Doubles

    A number of the program is a double: [Fin q] stands for the double of
    value [q], and arithmetic rounds its exact result to the nearest double,
    ties to even, with gradual underflow and overflow to the infinities.  The
    sign of zero is not kept. *)

Definition pow2 (e : Z) : Q :=
  if (0 <=? e)%Z then inject_Z (2 ^ e) else 1 # Z.to_pos (2 ^ (- e)).

Definition pow10 (e : Z) : Q :=
  if (0 <=? e)%Z then inject_Z (10 ^ e) else 1 # Z.to_pos (10 ^ (- e)).

(** The binary exponent of a positive rational: [2^(ilog2 q) <= q < 2^(ilog2 q + 1)]. *)
Definition ilog2 (q : Q) : Z :=
  let t := (Z.log2 (Qnum q) - Z.log2 (Zpos (Qden q)))%Z in
  if Qle_bool (pow2 t) q then t else (t - 1)%Z.

(** The nearest integer, ties to even. *)
Definition roundHalfEven (s : Q) : Z :=
  let f := Qfloor s in
  match Qcompare (s - inject_Z f) (1 # 2) with
  | Lt => f
  | Gt => (f + 1)%Z
  | Eq => if Z.even f then f else (f + 1)%Z
  end.

(** A positive rational rounded to 53 significant bits, on the grid of the
    subnormals below [2^-1022]. *)
Definition roundPos (a : Q) : Q :=
  let e := Z.max (ilog2 a - 52) (-1074) in
  Qred (inject_Z (roundHalfEven (a / pow2 e)) * pow2 e).

(** The double nearest to a rational. *)
Definition round64 (q : Q) : number :=
  match Qcompare q 0 with
  | Eq => Fin 0
  | Gt => let v := roundPos q in
          if Qle_bool (pow2 1024) v then PosInf else Fin v
  | Lt => let v := roundPos (- q) in
          if Qle_bool (pow2 1024) v then NegInf else Fin (- v)
  end.

(** [a * b] *)
Definition mul (a b : number) : number :=
  let negative (x : number) :=
    match x with NegInf => true | Fin q => negb (Qle_bool 0 q) | _ => false end in
  let zero (x : number) :=
    match x with Fin q => Qeq_bool q 0 | _ => false end in
  match a, b with
  | NaN, _ | _, NaN => NaN
  | Fin x, Fin y => round64 (x * y)
  | _, _ =>
      if zero a || zero b then NaN
      else if xorb (negative a) (negative b) then NegInf else PosInf
  end.

(** Number::toString: the shortest decimal that reads back as the same
    double, the digits [s], their number [k] and the decimal exponent [n]
    with value [s * 10^(n-k)], in the notation the language fixes for [n]. *)
Definition roundsTo (x candidate : Q) : bool :=
  match round64 candidate with
  | Fin y => Qeq_bool y x
  | _ => false
  end.

Fixpoint settle (fuel : nat) (v : Q) (c : Z) : Z :=
  match fuel with
  | O => c
  | S fuel' =>
      if negb (Qle_bool (pow10 (c - 1)) v) then settle fuel' v (c - 1)%Z
      else if Qle_bool (pow10 c) v then settle fuel' v (c + 1)%Z
      else c
  end.

(** [n] with [10^(n-1) <= v < 10^n], for a positive double [v]. *)
Definition decimalExponent (v : Q) : Z :=
  settle 8 v (ilog2 v * 30103 / 100000 + 1)%Z.

(** The [k]-digit decimals next to [x]: the one that reads back as [x], the
    closer one when both do, the even one when they are as close. *)
Definition candidate (x : Q) (n k : Z) : option (Z * Z) :=
  let u := pow10 (n - k) in
  let lo := Qfloor (x / u) in
  let hi := (lo + 1)%Z in
  let pick (s : Z) :=
    if (s =? 10 ^ k)%Z then Some ((10 ^ (k - 1))%Z, (n + 1)%Z) else Some (s, n) in
  match roundsTo x (inject_Z lo * u), roundsTo x (inject_Z hi * u) with
  | true, true =>
      match Qcompare (x - inject_Z lo * u) (inject_Z hi * u - x) with
      | Lt => pick lo
      | Gt => pick hi
      | Eq => if Z.even lo then pick lo else pick hi
      end
  | true, false => pick lo
  | false, true => pick hi
  | false, false => None
  end.

(** The least [k] that works; seventeen digits always do. *)
Fixpoint shortest (fuel : nat) (x : Q) (n k : Z) : Z * Z * Z :=
  match fuel with
  | O => (0, n, k)%Z
  | S fuel' =>
      match candidate x n k with
      | Some (s, n') => (s, n', k)
      | None => shortest fuel' x n (k + 1)%Z
      end
  end.

Fixpoint zeros (n : nat) : string :=
  match n with O => EmptyString | S n' => String "0" (zeros n') end.

Definition formatDigits (s n k : Z) : string :=
  let d := pretty (Z.to_N s) in
  if ((k <=? n) && (n <=? 21))%Z then d ++ zeros (Z.to_nat (n - k))
  else if ((0 <? n) && (n <=? 21))%Z then
    substring 0 (Z.to_nat n) d ++ "."
    ++ substring (Z.to_nat n) (Z.to_nat (k - n)) d
  else if ((-6 <? n) && (n <=? 0))%Z then "0." ++ zeros (Z.to_nat (- n)) ++ d
  else
    let e := (n - 1)%Z in
    let es := (if (e <? 0)%Z then "-" else "+") ++ pretty (Z.to_N (Z.abs e)) in
    if (k =? 1)%Z then d ++ "e" ++ es
    else substring 0 1 d ++ "." ++ substring 1 (Z.to_nat (k - 1)) d ++ "e" ++ es.

Definition positiveToString (x : Q) : string :=
  let '(s, n, k) := shortest 17 x (decimalExponent x) 1 in
  formatDigits s n k.

Definition numberToString (a : number) : string :=
  match a with
  | NaN => "NaN"
  | PosInf => "Infinity"
  | NegInf => "-Infinity"
  | Fin q =>
      match round64 q with
      | Fin x =>
          match Qcompare x 0 with
          | Eq => "0"
          | Gt => positiveToString x
          | Lt => "-" ++ positiveToString (- x)
          end
      | PosInf => "Infinity"
      | NegInf => "-Infinity"
      | NaN => "NaN"
      end
  end.

(** The values that cross the client's functions: primitives, arrays, and
    objects as finite maps from property names to values. *)
#[local] Set Warnings "-register-all".
Inductive value : Type :=
  | VUndefined
  | VNull
  | VBool (b : bool)
  | VNum (n : number)
  | VStr (s : string)
  | VArr (items : list value)
  | VObj (fields : gmap string value).
#[local] Set Warnings "register-all".

(** ToBoolean: what [if (v)], [!v] and [v || w] test. *)
Definition truthy (v : value) : bool :=
  match v with
  | VUndefined | VNull => false
  | VBool b => b
  | VNum NaN => false
  | VNum (Fin q) => negb (Qeq_bool q 0)
  | VNum _ => true
  | VStr s => negb (String.eqb s "")
  | VArr _ | VObj _ => true
  end.

(** [a || b] *)
Definition or (a b : value) : value := if truthy a then a else b.

(** A default parameter [x = d]: the default replaces [undefined] only. *)
Definition default_param (x d : value) : value :=
  match x with VUndefined => d | _ => x end.

Definition nullish (v : value) : bool :=
  match v with VUndefined | VNull => true | _ => false end.

(** ToString.  An array is the join of its elements by commas, [null] and
    [undefined] among them counting as empty; an object is '[object Object]',
    unless it has a property [toString] of its own: a value of a response
    body is no function, the conversion finds nothing to call that gives a
    primitive, and throws a TypeError, which is [None] here. *)
Fixpoint ToString (v : value) : option string :=
  match v with
  | VUndefined => Some "undefined"
  | VNull => Some "null"
  | VBool b => Some (if b then "true" else "false")
  | VNum n => Some (numberToString n)
  | VStr s => Some s
  | VArr items =>
      (fix join (l : list value) : option string :=
         match l with
         | [] => Some EmptyString
         | x :: rest =>
             let element :=
               match x with
               | VUndefined | VNull => Some EmptyString
               | _ => ToString x
               end in
             match element, rest with
             | None, _ => None
             | Some text, [] => Some text
             | Some text, _ :: _ =>
                 match join rest with
                 | Some more => Some (text ++ "," ++ more)
                 | None => None
                 end
             end
         end) items
  | VObj fields =>
      match fields !! "toString" with
      | Some _ => None
      | None => Some "[object Object]"
      end
  end.

(** Thrown values.  Every value the client throws or catches is an Error
    object, with its [name] and its [message]. *)
Record JsError : Type := mkError { name : string; message : string }.

Definition new_TypeError (msg : string) : JsError :=
  {| name := "TypeError"; message := msg |}.

(** [new Error(msg)], always the operand of a [throw]: the message is the
    string conversion of the argument (empty for [undefined]); when the
    conversion itself throws, its TypeError is what the statement throws. *)
Definition new_Error (msg : value) : JsError :=
  match msg with
  | VUndefined => {| name := "Error"; message := EmptyString |}
  | _ =>
      match ToString msg with
      | Some text => {| name := "Error"; message := text |}
      | None => new_TypeError "Cannot convert object to primitive value"
      end
  end.

(** Completion of a computation: a value, or a thrown error. *)
Inductive result (A : Type) : Type :=
  | Return (a : A)
  | Throw (e : JsError).
Arguments Return {A} a.
Arguments Throw {A} e.

(** Property read [v.k].  Own properties of objects, and [length] of strings
    and arrays; any other property of a primitive or of an array reads as
    [undefined] (the client reads no index and no other builtin property). *)
Definition get (v : value) (k : string) : value :=
  match v with
  | VObj fields => default VUndefined (fields !! k)
  | VStr s => if String.eqb k "length"
              then VNum (lit (Z.of_nat (String.length s))) else VUndefined
  | VArr items => if String.eqb k "length"
                  then VNum (lit (Z.of_nat (length items))) else VUndefined
  | _ => VUndefined
  end.

(** [v.k] where nothing guards [v]: reading a property of [null] or
    [undefined] throws a TypeError (its text is the engine's own, here
    V8's; the client never reads it). *)
Definition member (v : value) (k : string) : result value :=
  match v with
  | VNull =>
      Throw (new_TypeError
               ("Cannot read properties of null (reading '" ++ k ++ "')"))
  | VUndefined =>
      Throw (new_TypeError
               ("Cannot read properties of undefined (reading '" ++ k ++ "')"))
  | _ => Return (get v k)
  end.

(** Optional chaining [v?.k]. *)
Definition opt_member (v : value) (k : string) : value :=
  if nullish v then VUndefined else get v k.

(** *** Effects: state passing over a world [W], with exceptions *)

Definition eff (W A : Type) : Type := W -> result A * W.

Definition ret {W A} (a : A) : eff W A := fun w => (Return a, w).

Definition throw {W A} (e : JsError) : eff W A := fun w => (Throw e, w).

Definition bind {W A B} (c : eff W A) (k : A -> eff W B) : eff W B :=
  fun w =>
    match c w with
    | (Return a, w') => k a w'
    | (Throw e, w') => (Throw e, w')
    end.

(** [try { body } catch (error) { handler }] *)
Definition tryCatch {W A} (body : eff W A) (handler : JsError -> eff W A)
  : eff W A :=
  fun w =>
    match body w with
    | (Return a, w') => (Return a, w')
    | (Throw e, w') => handler e w'
    end.

(** [try { body } finally { fin }]: [fin] runs on both exits and, when it
    completes normally, the completion of [body] stands. *)
Definition tryFinally {W A} (body : eff W A) (fin : eff W unit) : eff W A :=
  fun w =>
    let '(r, w') := body w in
    match fin w' with
    | (Return _, w'') => (r, w'')
    | (Throw e, w'') => (Throw e, w'')
    end.

(** Run a computation on a part of the world. *)
Definition zoom {W V A} (proj : W -> V) (put : V -> W -> W) (c : eff V A)
  : eff W A :=
  fun w => let '(r, v) := c (proj w) in (r, put v w).

(** *** Strings

    A string is a sequence of code units below 256, the Latin-1 range of
    UTF-16. *)

(** WhiteSpace and LineTerminator code units in that range: TAB, LF, VT, FF,
    CR, SP and NBSP. *)
Definition isWhiteSpace (c : ascii) : bool :=
  let n := N_of_ascii c in
  (((9 <=? n) && (n <=? 13)) || (n =? 32) || (n =? 160))%N.

Fixpoint trimStart (s : string) : string :=
  match s with
  | EmptyString => EmptyString
  | String c s' => if isWhiteSpace c then trimStart s' else s
  end.

Fixpoint trimEnd (s : string) : string :=
  match s with
  | EmptyString => EmptyString
  | String c s' =>
      match trimEnd s' with
      | EmptyString => if isWhiteSpace c then EmptyString else String c EmptyString
      | t => String c t
      end
  end.

(** [s.trim()] *)
Definition trim (s : string) : string := trimEnd (trimStart s).

(** [s.toLowerCase()]: A-Z and the accented capitals U+00C0-U+00DE, except
    the multiplication sign U+00D7. *)
Definition lowerChar (c : ascii) : ascii :=
  let n := N_of_ascii c in
  if (((65 <=? n) && (n <=? 90))
      || ((192 <=? n) && (n <=? 222) && negb (n =? 215)))%N
  then ascii_of_N (n + 32) else c.

Fixpoint toLowerCase (s : string) : string :=
  match s with
  | EmptyString => EmptyString
  | String c s' => String (lowerChar c) (toLowerCase s')
  end.

(** [s.split(sep)] for a one-character separator: never the empty list. *)
Fixpoint split (sep : ascii) (s : string) : list string :=
  match s with
  | EmptyString => [EmptyString]
  | String c s' =>
      if Ascii.eqb c sep then EmptyString :: split sep s'
      else match split sep s' with
           | seg :: rest => String c seg :: rest
           | [] => [String c EmptyString]
           end
  end.

(** [a.pop()] as an expression: the last element, [undefined] on []. *)
Definition pop (segments : list string) : option string := last segments.

(** [a.includes(x)] on an array of strings. *)
Definition includes (a : list string) (x : string) : bool :=
  existsb (String.eqb x) a.

(** [a.join(sep)] *)
Definition join (sep : string) (a : list string) : string := String.concat sep a.

(** [Math.round(x)]: the nearest integer, halves up; NaN and the infinities
    stay. *)
Definition Math_round (x : number) : number :=
  match x with
  | Fin q => Fin (inject_Z (Qfloor (q + (1 # 2))))
  | _ => x
  end.

(** [a.sort(compare)]: the sort is stable, and [compare x y <= 0] keeps [x]
    before [y]. *)
Fixpoint insertBy {A} (compare : A -> A -> Z) (x : A) (l : list A) : list A :=
  match l with
  | [] => [x]
  | y :: l' => if (compare x y <=? 0)%Z then x :: l else y :: insertBy compare x l'
  end.

Definition sort {A} (compare : A -> A -> Z) (l : list A) : list A :=
  foldr (insertBy compare) [] l.

(** [a.slice(0, n)] *)
Definition slice0 {A} (n : nat) (l : list A) : list A := take n l.

(** [a && b] and [!a] *)
Definition and_ (a b : value) : value := if truthy a then b else a.

Definition not_ (a : value) : value := VBool (negb (truthy a)).

(** [Math.ceil(x)] on a finite number. *)
Definition Math_ceil (x : Q) : Z := Qceiling x.

(** [a.slice(start, stop)] on integer bounds: a negative bound counts from
    the end, and both are clamped to the array. *)
Definition slice {A} (start stop : Z) (l : list A) : list A :=
  let len := Z.of_nat (length l) in
  let k := if (start <? 0)%Z then Z.max (len + start) 0 else Z.min start len in
  let final := if (stop <? 0)%Z then Z.max (len + stop) 0 else Z.min stop len in
  take (Z.to_nat (final - k)) (drop (Z.to_nat k) l).

End Js.

(** ** HistoryPage *)

Module HistoryPage.
Import Js.

Record HistoryItem : Type := {
  analysis_id : string;
  resume_id : string;
  jd_id : string;
  score : number;
  created_at : string
}.

Definition getScoreColor (score : number) : string :=
  if ge score (lit 80) then "text-green-600 bg-green-100"
  else if ge score (lit 60) then "text-yellow-600 bg-yellow-100"
  else "text-red-600 bg-red-100".

Definition getScoreBand (score : number) : string :=
  if ge score (lit 80) then "Strong"
  else if ge score (lit 60) then "Moderate"
  else "Low".

(** The three counters of the stats summary, each a [history.filter(..).length]. *)
Definition strongMatches (history : list HistoryItem) : nat :=
  length (List.filter (fun item => ge (score item) (lit 80)) history).

Definition moderateMatches (history : list HistoryItem) : nat :=
  length (List.filter
            (fun item => ge (score item) (lit 60) && lt (score item) (lit 80))
            history).

Definition lowMatches (history : list HistoryItem) : nat :=
  length (List.filter (fun item => lt (score item) (lit 60)) history).

Definition totalAnalyses (history : list HistoryItem) : nat := length history.

(** Pagination.  [currentPage] is the page in view, from 1. *)
Definition itemsPerPage : Z := 10.

Definition totalPages (history : list HistoryItem) : Z :=
  Math_ceil (inject_Z (Z.of_nat (length history)) / inject_Z itemsPerPage).

Definition startIndex (currentPage : Z) : Z := (currentPage - 1) * itemsPerPage.

Definition endIndex (currentPage : Z) : Z := startIndex currentPage + itemsPerPage.

Definition currentHistory (history : list HistoryItem) (currentPage : Z)
  : list HistoryItem :=
  slice (startIndex currentPage) (endIndex currentPage) history.

(** [goToPage(page)]: the page [setCurrentPage] receives. *)
Definition goToPage (history : list HistoryItem) (page : Z) : Z :=
  Z.max 1 (Z.min page (totalPages history)).

(** The page numbers, [Array.from({ length: totalPages }, (_, i) => i + 1)],
    that the numbered buttons are made from. *)
Definition pageButtons (history : list HistoryItem) : list Z :=
  map (fun i => Z.of_nat i + 1)%Z (seq 0 (Z.to_nat (totalPages history))).

(** The pagination bar is rendered under [totalPages > 1] only. *)
Definition paginationShown (history : list HistoryItem) : bool :=
  (1 <? totalPages history)%Z.

(** The numbered buttons on the page. *)
Definition renderedPageButtons (history : list HistoryItem) : list Z :=
  if paginationShown history then pageButtons history else [].

(** Previous and Next: [goToPage(currentPage - 1)] and
    [goToPage(currentPage + 1)], disabled on the first and on the last
    page. *)
Definition previousDisabled (currentPage : Z) : bool := (currentPage =? 1)%Z.

Definition nextDisabled (history : list HistoryItem) (currentPage : Z) : bool :=
  (currentPage =? totalPages history)%Z.

(** The bounds of the line 'Showing a to b of n results'. *)
Definition showingFrom (currentPage : Z) : Z := startIndex currentPage + 1.

Definition showingTo (history : list HistoryItem) (currentPage : Z) : Z :=
  Z.min (endIndex currentPage) (Z.of_nat (length history)).

(** The page's own state, the alerts it has raised, the reloads it has asked
    for, and the world [W] of the context it uses. *)
Record Page (W : Type) : Type := {
  currentPage : Z;
  deletingId : option string;
  alerts : list string;
  reloads : nat;
  context : W
}.
Arguments currentPage {W} _.
Arguments deletingId {W} _.
Arguments alerts {W} _.
Arguments reloads {W} _.
Arguments context {W} _.

Section Delete.
Context {W : Type}.

(** The [deleteAnalysis] the page takes from [useAnalysis()]: a function of
    the context, or [undefined] when the context's value has no such
    property. *)
Variable deleteAnalysis : option (string -> eff W value).

Definition setDeletingId (id : option string) : eff (Page W) unit :=
  fun p => (Return tt,
            {| currentPage := currentPage p; deletingId := id;
               alerts := alerts p; reloads := reloads p;
               context := context p |}).

Definition alert (msg : string) : eff (Page W) unit :=
  fun p => (Return tt,
            {| currentPage := currentPage p; deletingId := deletingId p;
               alerts := alerts p ++ [msg]; reloads := reloads p;
               context := context p |}).

(** [window.location.reload()] *)
Definition reload : eff (Page W) unit :=
  fun p => (Return tt,
            {| currentPage := currentPage p; deletingId := deletingId p;
               alerts := alerts p; reloads := S (reloads p);
               context := context p |}).

Definition setContext (w : W) (p : Page W) : Page W :=
  {| currentPage := currentPage p; deletingId := deletingId p;
     alerts := alerts p; reloads := reloads p; context := w |}.

(** The call [deleteAnalysis(analysisId)]: calling [undefined] throws a
    TypeError. *)
Definition callDeleteAnalysis (analysisId : string) : eff (Page W) value :=
  match deleteAnalysis with
  | Some f => zoom context setContext (f analysisId)
  | None => throw (new_TypeError "deleteAnalysis is not a function")
  end.

(** [confirmed] is the answer [window.confirm] returns. *)
Definition handleDelete (confirmed : bool) (analysisId : string)
  : eff (Page W) unit :=
  if confirmed then
    bind (setDeletingId (Some analysisId)) (fun _ =>
    tryFinally
      (tryCatch
         (bind (callDeleteAnalysis analysisId) (fun _ => reload))
         (fun error => alert "Failed to delete analysis. Please try again."))
      (setDeletingId None))
  else ret tt.

End Delete.

End HistoryPage.

(** ** AnalysisResults *)

Module AnalysisResults.
Import Js.

Definition getScoreColor (score : number) : string :=
  if ge score (lit 80) then "text-green-600"
  else if ge score (lit 60) then "text-yellow-600"
  else "text-red-600".

Definition getScoreBand (score : number) : string :=
  if ge score (lit 80) then "Strong Match"
  else if ge score (lit 60) then "Moderate Match"
  else "Low Match".

Definition getScoreBandColor (score : number) : string :=
  if ge score (lit 80) then "bg-green-100 text-green-800"
  else if ge score (lit 60) then "bg-yellow-100 text-yellow-800"
  else "bg-red-100 text-red-800".

End AnalysisResults.

(** ** services/api.js *)

Module Api.
Import Js.

Inductive Body : Type :=
  | NoBody
  | Json (payload : gmap string value)
  | FormData (entries : list (string * value)).

Record Request : Type := {
  method : string;
  url : string;
  body : Body;
  params : gmap string value;
  headers : gmap string string
}.

Record AxiosResponse : Type := { status : Z; data : value }.

(** The error object axios rejects with. *)
Record AxiosError : Type := {
  response : value;
  request : value;
  error_message : value
}.

Inductive Outcome : Type :=
  | Fulfilled (r : AxiosResponse)
  | Rejected (e : AxiosError).

(** The network as the client sees it: the requests handed to the axios
    instance so far ([sent], one entry per call of [api.post], [api.get] or
    [api.delete], whether or not anything left the machine), and the outcome
    the transport gives a request after those. *)
Record Net : Type := {
  sent : list Request;
  server : list Request -> Request -> Outcome
}.

(** The instance's default headers. *)
Definition defaultHeaders : gmap string string :=
  {[ "Content-Type" := "application/json" ]}.

(** Response interceptor, success handler. *)
Definition responseFulfilled (r : AxiosResponse) : result value :=
  Return (data r).

(** Response interceptor, error handler. *)
Definition responseRejected (error : AxiosError) : result value :=
  if truthy (response error) then
    let data := get (response error) "data" in
    let errorMessage :=
      or (or (opt_member data "detail") (opt_member data "message"))
         (VStr "Server error") in
    Throw (new_Error errorMessage)
  else if truthy (request error) then
    Throw (new_Error (VStr "No response from server. Please check your connection."))
  else
    Throw (new_Error (or (error_message error)
                         (VStr "An unexpected error occurred"))).

(** One request through the instance: it is recorded as issued, and the
    response interceptor turns the transport's outcome into a completion. *)
Definition dispatchRequest (req : Request) : eff Net value :=
  fun n =>
    let completion :=
      match server n (sent n) req with
      | Fulfilled r => responseFulfilled r
      | Rejected e => responseRejected e
      end in
    (completion, {| sent := sent n ++ [req]; server := server n |}).

Definition post (url : string) (body : Body) (headers : gmap string string)
  : eff Net value :=
  dispatchRequest {| method := "post"; url := url; body := body;
                     params := ∅; headers := headers ∪ defaultHeaders |}.

Definition get_ (url : string) (params : gmap string value) : eff Net value :=
  dispatchRequest {| method := "get"; url := url; body := NoBody;
                     params := params; headers := defaultHeaders |}.

Definition multipart : gmap string string :=
  {[ "Content-Type" := "multipart/form-data" ]}.

Definition uploadResume (formData : list (string * value)) : eff Net value :=
  tryCatch
    (bind (post "/api/v1/upload-resume" (FormData formData) multipart)
          (fun response => ret response))
    (fun error => throw error).

Definition uploadJobDescription (formData : list (string * value))
  : eff Net value :=
  tryCatch
    (bind (post "/api/v1/upload-job" (FormData formData) multipart)
          (fun response => ret response))
    (fun error => throw error).

(** The [payload] object [analyzeResume] builds. *)
Definition analyzePayload (resumeId jdId targetRole : value)
  : gmap string value :=
  let payload : gmap string value :=
    <["jd_id" := jdId]> (<["resume_id" := resumeId]> ∅) in
  if truthy targetRole then <["target_role" := targetRole]> payload
  else payload.

Definition analyzeResume (resumeId jdId targetRole : value) : eff Net value :=
  let targetRole := default_param targetRole VNull in
  tryCatch
    (bind (post "/api/v1/analyze"
                (Json (analyzePayload resumeId jdId targetRole)) ∅)
          (fun response => ret response))
    (fun error => throw error).

Definition delete_ (url : string) : eff Net value :=
  dispatchRequest {| method := "delete"; url := url; body := NoBody;
                     params := ∅; headers := defaultHeaders |}.

Definition getAnalysis (analysisId : string) : eff Net value :=
  tryCatch
    (bind (get_ ("/api/v1/analysis/" ++ analysisId) ∅)
          (fun response => ret response))
    (fun error => throw error).

Definition deleteAnalysis (analysisId : string) : eff Net value :=
  tryCatch
    (bind (delete_ ("/api/v1/analysis/" ++ analysisId))
          (fun response => ret response))
    (fun error => throw error).

Definition deleteDocument (documentId : string) : eff Net value :=
  tryCatch
    (bind (delete_ ("/api/v1/document/" ++ documentId))
          (fun response => ret response))
    (fun error => throw error).

Definition healthCheck : eff Net value :=
  tryCatch
    (bind (get_ "/api/v1/health" ∅) (fun response => ret response))
    (fun error => throw error).

Definition getSystemStats : eff Net value :=
  tryCatch
    (bind (get_ "/api/v1/stats" ∅) (fun response => ret response))
    (fun error => throw error).

Definition getApiInfo : eff Net value :=
  tryCatch
    (bind (get_ "/api" ∅) (fun response => ret response))
    (fun error => throw error).

Definition getHistory (limit offset : value) : eff Net value :=
  let limit := default_param limit (VNum (lit 20)) in
  let offset := default_param offset (VNum (lit 0)) in
  tryCatch
    (bind (get_ "/api/v1/history"
                (<["offset" := offset]> (<["limit" := limit]> ∅)))
          (fun response =>
             match member response "items" with
             | Return items => ret (or items (VArr []))
             | Throw e => throw e
             end))
    (fun error => throw error).

End Api.

(** ** contexts/AnalysisContext *)

Module AnalysisContext.
Import Js.

Record State : Type := {
  resume : value;
  jobDescription : value;
  analysis : value;
  history : value;
  loading : value;
  error : value;
  currentStep : value
}.

Definition initialState : State := {|
  resume := VNull;
  jobDescription := VNull;
  analysis := VNull;
  history := VArr [];
  loading := VBool false;
  error := VNull;
  currentStep := VStr "upload"
|}.

Record Action : Type := { type : string; payload : value }.

(** An action object without a [payload] property. *)
Definition action (type : string) : Action :=
  {| type := type; payload := VUndefined |}.

Definition analysisReducer (state : State) (action : Action) : State :=
  if String.eqb (type action) "SET_RESUME" then
    {| resume := payload action; jobDescription := jobDescription state;
       analysis := analysis state; history := history state;
       loading := loading state; error := VNull;
       currentStep := currentStep state |}
  else if String.eqb (type action) "SET_JOB_DESCRIPTION" then
    {| resume := resume state; jobDescription := payload action;
       analysis := analysis state; history := history state;
       loading := loading state; error := VNull;
       currentStep := currentStep state |}
  else if String.eqb (type action) "SET_ANALYSIS" then
    {| resume := resume state; jobDescription := jobDescription state;
       analysis := payload action; history := history state;
       loading := loading state; error := VNull;
       currentStep := VStr "results" |}
  else if String.eqb (type action) "SET_LOADING" then
    {| resume := resume state; jobDescription := jobDescription state;
       analysis := analysis state; history := history state;
       loading := payload action; error := error state;
       currentStep := currentStep state |}
  else if String.eqb (type action) "SET_ERROR" then
    {| resume := resume state; jobDescription := jobDescription state;
       analysis := analysis state; history := history state;
       loading := VBool false; error := payload action;
       currentStep := currentStep state |}
  else if String.eqb (type action) "SET_CURRENT_STEP" then
    {| resume := resume state; jobDescription := jobDescription state;
       analysis := analysis state; history := history state;
       loading := loading state; error := error state;
       currentStep := payload action |}
  else if String.eqb (type action) "SET_HISTORY" then
    {| resume := resume state; jobDescription := jobDescription state;
       analysis := analysis state; history := payload action;
       loading := loading state; error := error state;
       currentStep := currentStep state |}
  else if String.eqb (type action) "RESET" then
    {| resume := resume initialState;
       jobDescription := jobDescription initialState;
       analysis := analysis initialState; history := history state;
       loading := loading initialState; error := error initialState;
       currentStep := currentStep initialState |}
  else if String.eqb (type action) "CLEAR_ERROR" then
    {| resume := resume state; jobDescription := jobDescription state;
       analysis := analysis state; history := history state;
       loading := loading state; error := VNull;
       currentStep := currentStep state |}
  else state.

(** The provider's world: the reducer's store, and the network. *)
Record World : Type := { store : State; net : Api.Net }.

Definition dispatch (a : Action) : eff World unit :=
  fun w => (Return tt, {| store := analysisReducer (store w) a; net := net w |}).

(** An API call, run on the network part of the world. *)
Definition api {A} (c : eff Api.Net A) : eff World A :=
  zoom net (fun n w => {| store := store w; net := n |}) c.

Definition loadHistory : eff World unit :=
  tryCatch
    (bind (api (Api.getHistory VUndefined VUndefined)) (fun history =>
     dispatch {| type := "SET_HISTORY"; payload := history |}))
    (fun error => ret tt).

(** The four upload operations share one shape: [field] is the form field
    ('file' or 'text'), [upload] the API call and [set] the action type. *)
Definition uploadWith (field : string) (upload : list (string * value) -> eff Api.Net value)
    (set : string) (content : value) : eff World value :=
  tryFinally
    (tryCatch
       (bind (dispatch {| type := "SET_LOADING"; payload := VBool true |}) (fun _ =>
        bind (dispatch (action "CLEAR_ERROR")) (fun _ =>
        let formData := [(field, content)] in
        bind (api (upload formData)) (fun result =>
        bind (dispatch {| type := set; payload := result |}) (fun _ =>
        ret result)))))
       (fun error =>
        bind (dispatch {| type := "SET_ERROR"; payload := VStr (message error) |}) (fun _ =>
        throw error)))
    (dispatch {| type := "SET_LOADING"; payload := VBool false |}).

Definition uploadResumeFile (file : value) : eff World value :=
  uploadWith "file" Api.uploadResume "SET_RESUME" file.

Definition uploadResumeText (text : string) : eff World value :=
  uploadWith "text" Api.uploadResume "SET_RESUME" (VStr text).

Definition uploadJobDescriptionFile (file : value) : eff World value :=
  uploadWith "file" Api.uploadJobDescription "SET_JOB_DESCRIPTION" file.

Definition uploadJobDescriptionText (text : string) : eff World value :=
  uploadWith "text" Api.uploadJobDescription "SET_JOB_DESCRIPTION" (VStr text).

Definition requiredMessage : string :=
  "Both resume and job description are required".

(** [performAnalysis] reads [state] from the closure of the render that
    created it, here the store at the time of the call, and writes through
    [dispatch]. *)
Definition performAnalysis (targetRole : value) : eff World value :=
  fun w =>
    let state := store w in
    let targetRole := default_param targetRole VNull in
    tryFinally
      (tryCatch
         (if negb (truthy (resume state)) || negb (truthy (jobDescription state))
          then throw (new_Error (VStr requiredMessage))
          else
            bind (dispatch {| type := "SET_LOADING"; payload := VBool true |}) (fun _ =>
            bind (dispatch {| type := "SET_CURRENT_STEP"; payload := VStr "analyzing" |}) (fun _ =>
            bind (dispatch (action "CLEAR_ERROR")) (fun _ =>
            bind (api (Api.analyzeResume (get (resume state) "document_id")
                                         (get (jobDescription state) "document_id")
                                         targetRole)) (fun analysis =>
            bind (dispatch {| type := "SET_ANALYSIS"; payload := analysis |}) (fun _ =>
            bind loadHistory (fun _ =>
            ret analysis)))))))
         (fun error =>
          bind (dispatch {| type := "SET_ERROR"; payload := VStr (message error) |}) (fun _ =>
          bind (dispatch {| type := "SET_CURRENT_STEP"; payload := VStr "upload" |}) (fun _ =>
          throw error))))
      (dispatch {| type := "SET_LOADING"; payload := VBool false |})
      w.

Definition reset : eff World unit := dispatch (action "RESET").

Definition clearError : eff World unit := dispatch (action "CLEAR_ERROR").

(** The [value] object the provider hands to its consumers: the fields of the
    state, spread, then the operations. *)
Inductive Member : Type :=
  | Field (v : value)
  | OnValue (f : value -> eff World value)
  | OnText (f : string -> eff World value)
  | Plain (f : eff World unit).

Definition contextValue (state : State) : list (string * Member) :=
  [ ("resume", Field (resume state));
    ("jobDescription", Field (jobDescription state));
    ("analysis", Field (analysis state));
    ("history", Field (history state));
    ("loading", Field (loading state));
    ("error", Field (error state));
    ("currentStep", Field (currentStep state));
    ("uploadResumeFile", OnValue uploadResumeFile);
    ("uploadResumeText", OnText uploadResumeText);
    ("uploadJobDescriptionFile", OnValue uploadJobDescriptionFile);
    ("uploadJobDescriptionText", OnText uploadJobDescriptionText);
    ("performAnalysis", OnValue performAnalysis);
    ("reset", Plain reset);
    ("clearError", Plain clearError);
    ("loadHistory", Plain loadHistory) ].

(** A property a consumer destructures from the context: [None] is
    [undefined], for a name the object does not have. *)
Definition property (state : State) (key : string) : option Member :=
  snd <$> List.find (fun entry => String.eqb (fst entry) key) (contextValue state).

(** A destructured property used as a function of one string: [None] when
    calling it throws a TypeError, as a call of [undefined] or of a field
    does. *)
Definition callable (m : option Member) : option (string -> eff World value) :=
  match m with
  | Some (OnText f) => Some f
  | Some (OnValue f) => Some (fun text => f (VStr text))
  | Some (Plain f) => Some (fun _ => bind f (fun _ => ret VUndefined))
  | Some (Field _) | None => None
  end.

End AnalysisContext.

(** ** HistoryPage under the provider *)

Module HistoryPageInContext.
Import Js.

(** [const { history, loading, deleteAnalysis } = useAnalysis()] *)
Definition deleteAnalysis (state : AnalysisContext.State)
  : option (string -> eff AnalysisContext.World value) :=
  AnalysisContext.callable (AnalysisContext.property state "deleteAnalysis").

Definition handleDelete (confirmed : bool) (analysisId : string)
  : eff (HistoryPage.Page AnalysisContext.World) unit :=
  fun p =>
    HistoryPage.handleDelete
      (deleteAnalysis (AnalysisContext.store (HistoryPage.context p)))
      confirmed analysisId p.

End HistoryPageInContext.

(** ** components/SkillGapChart *)

Module SkillGapChart.
Import Js.

(** The skill entries of an analysis result, as the chart reads them: a
    matched skill through [name] and [confidence], a missing or nice-to-have
    one through [name] and [importance]. *)
Module Matched.
Record t : Type := { name : string; confidence : Q }.
End Matched.

Module Gap.
Record t : Type := { name : string; importance : Q }.
End Gap.

Record Analysis : Type := {
  matched_skills : list Matched.t;
  missing_skills : list Gap.t;
  nice_to_have_skills : list Gap.t
}.

(** A row of the chart.  Its two numbers are integers or infinite (they are
    results of [Math.round], or literals): they are kept as integers, with
    [2^1024], above every double, for [Infinity] and its opposite for
    [-Infinity], which keeps their order and the sign of their
    differences. *)
Record ChartDatum : Type := {
  name : string;
  importance : Z;
  confidence : Z;
  type : string;
  color : string
}.

(** A weight of the result, a rational as the response writes it, as the
    double it is read to. *)
Definition double (x : Q) : number := round64 x.

(** An integer-valued or infinite number as a number of a row; NaN does not
    come from a product of two numbers that are not NaN. *)
Definition integer (x : number) : Z :=
  match x with
  | Fin q => Qfloor q
  | PosInf => 2 ^ 1024
  | NegInf => - 2 ^ 1024
  | NaN => 0
  end.

(** [Math.round(x * 100)] *)
Definition percent (x : Q) : Z :=
  integer (Math_round (mul (double x) (lit 100))).

Definition matchedDatum (skill : Matched.t) : ChartDatum :=
  {| name := Matched.name skill;
     importance := 100;
     confidence := percent (Matched.confidence skill);
     type := "matched";
     color := "#10B981" |}.

Definition missingDatum (skill : Gap.t) : ChartDatum :=
  {| name := Gap.name skill;
     importance := percent (Gap.importance skill);
     confidence := 0;
     type := "missing";
     color := "#EF4444" |}.

Definition niceToHaveDatum (skill : Gap.t) : ChartDatum :=
  {| name := Gap.name skill;
     importance := percent (Gap.importance skill);
     confidence := 0;
     type := "nice_to_have";
     color := "#3B82F6" |}.

(** The array [data] after the three [forEach] loops. *)
Definition chartRows (analysis : Analysis) : list ChartDatum :=
  map matchedDatum (matched_skills analysis)
  ++ map missingDatum (missing_skills analysis)
  ++ map niceToHaveDatum (nice_to_have_skills analysis).

Definition prepareChartData (analysis : Analysis) : list ChartDatum :=
  slice0 15
    (sort (fun a b => (importance b - importance a)%Z) (chartRows analysis)).

End SkillGapChart.

(** ** components/DocumentUpload *)

Module DocumentUpload.
Import Js.

Record File : Type := { name : string; size : Z }.

(** The component: its own state, the [showTextInput] flag its parent lends
    it, the alerts it has raised, and the parent's world [W], on which the
    upload callbacks act. *)
Record Component (W : Type) : Type := {
  dragActive : bool;
  selectedFile : option File;
  textInput : string;
  showTextInput : bool;
  alerts : list string;
  parent : W
}.
Arguments dragActive {W} _.
Arguments selectedFile {W} _.
Arguments textInput {W} _.
Arguments showTextInput {W} _.
Arguments alerts {W} _.
Arguments parent {W} _.

Section Handlers.
Context {W : Type}.
Variable acceptedTypes : list string.
Variable onTextUpload : string -> eff W value.

Definition alert (msg : string) (c : Component W) : Component W :=
  {| dragActive := dragActive c; selectedFile := selectedFile c;
     textInput := textInput c; showTextInput := showTextInput c;
     alerts := alerts c ++ [msg]; parent := parent c |}.

Definition setSelectedFile (f : option File) (c : Component W) : Component W :=
  {| dragActive := dragActive c; selectedFile := f;
     textInput := textInput c; showTextInput := showTextInput c;
     alerts := alerts c; parent := parent c |}.

Definition setTextInput (s : string) : eff (Component W) unit :=
  fun c => (Return tt,
            {| dragActive := dragActive c; selectedFile := selectedFile c;
               textInput := s; showTextInput := showTextInput c;
               alerts := alerts c; parent := parent c |}).

Definition setShowTextInput (b : bool) : eff (Component W) unit :=
  fun c => (Return tt,
            {| dragActive := dragActive c; selectedFile := selectedFile c;
               textInput := textInput c; showTextInput := b;
               alerts := alerts c; parent := parent c |}).

Definition setParent (w : W) (c : Component W) : Component W :=
  {| dragActive := dragActive c; selectedFile := selectedFile c;
     textInput := textInput c; showTextInput := showTextInput c;
     alerts := alerts c; parent := w |}.

(** ['.' + file.name.split('.').pop().toLowerCase()]; [split] never gives
    the empty array, so [pop] always finds a segment. *)
Definition fileExtension (file : File) : string :=
  "." ++ toLowerCase (default EmptyString (pop (split "." (name file)))).

Definition maxSize : Z :=
  if includes acceptedTypes ".pdf" then 6 * 1024 * 1024 else 3 * 1024 * 1024.

Definition handleFile (file : File) (c : Component W) : Component W :=
  if negb (includes acceptedTypes (fileExtension file)) then
    alert ("Invalid file type. Please upload: " ++ join ", " acceptedTypes) c
  else if (size file >? maxSize)%Z then
    let maxSizeMB := (maxSize / (1024 * 1024))%Z in
    alert ("File too large. Maximum size: " ++ pretty maxSizeMB ++ "MB") c
  else setSelectedFile (Some file) c.

Definition handleTextUpload : eff (Component W) unit :=
  fun c =>
    if truthy (VStr (trim (textInput c))) then
      tryCatch
        (bind (zoom parent setParent (onTextUpload (trim (textInput c)))) (fun _ =>
         bind (setTextInput "") (fun _ =>
         setShowTextInput false)))
        (fun error => ret tt)
        c
    else (Return tt, c).

(** The [disabled] attribute of the Submit Text button. *)
Definition submitDisabled (c : Component W) : bool :=
  negb (truthy (VStr (trim (textInput c)))).

(** A click on Submit Text: a disabled button fires no handler. *)
Definition clickSubmitText : eff (Component W) unit :=
  fun c => if submitDisabled c then (Return tt, c) else handleTextUpload c.

Variable onFileUpload : File -> eff W value.

Definition setDragActive (b : bool) (c : Component W) : Component W :=
  {| dragActive := b; selectedFile := selectedFile c;
     textInput := textInput c; showTextInput := showTextInput c;
     alerts := alerts c; parent := parent c |}.

(** [type] is the type of the drag event. *)
Definition handleDrag (type : string) (c : Component W) : Component W :=
  if String.eqb type "dragenter" || String.eqb type "dragover" then
    setDragActive true c
  else if String.eqb type "dragleave" then setDragActive false c
  else c.

(** [files] is [e.dataTransfer.files]. *)
Definition handleDrop (files : list File) (c : Component W) : Component W :=
  let c := setDragActive false c in
  match files with
  | file :: _ => handleFile file c
  | [] => c
  end.

(** [files] is [e.target.files]. *)
Definition handleFileInput (files : list File) (c : Component W)
  : Component W :=
  match files with
  | file :: _ => handleFile file c
  | [] => c
  end.

Definition handleFileUpload : eff (Component W) unit :=
  fun c =>
    match selectedFile c with
    | Some file =>
        tryCatch
          (bind (zoom parent setParent (onFileUpload file)) (fun _ =>
           fun c' => (Return tt, setSelectedFile None c')))
          (fun error => ret tt)
          c
    | None => (Return tt, c)
    end.

Definition toggleTextInput : eff (Component W) unit :=
  fun c =>
    bind (setShowTextInput (negb (showTextInput c))) (fun _ =>
    if showTextInput c then setTextInput "" else ret tt) c.

End Handlers.

End DocumentUpload.

(** ** pages/AnalysisPage *)

Module AnalysisPage.
Import Js.

Definition resumeAcceptedTypes : list string := [".pdf"; ".docx"].

Definition jobAcceptedTypes : list string := [".pdf"; ".txt"].

(** [targetRole] is the text of the role input. *)
Definition handleAnalyze (targetRole : string)
  : eff AnalysisContext.World unit :=
  tryCatch
    (bind (AnalysisContext.performAnalysis (or (VStr targetRole) VNull))
          (fun _ => ret tt))
    (fun error => ret tt).

(** [resume && jobDescription && !loading] *)
Definition canAnalyze (state : AnalysisContext.State) : value :=
  and_ (and_ (AnalysisContext.resume state) (AnalysisContext.jobDescription state))
       (not_ (AnalysisContext.loading state)).

(** The [disabled] attribute of the Analyze Resume button,
    [!canAnalyze || loading]. *)
Definition analyzeDisabled (state : AnalysisContext.State) : bool :=
  truthy (or (not_ (canAnalyze state)) (AnalysisContext.loading state)).

(** A click on Analyze Resume: a disabled button fires no handler. *)
Definition clickAnalyze (targetRole : string)
  : eff AnalysisContext.World unit :=
  fun w =>
    if analyzeDisabled (AnalysisContext.store w) then (Return tt, w)
    else handleAnalyze targetRole w.

End AnalysisPage.

(** ** The engine's skill classification

    The analysis engine runs on the server and is not part of the client's
    sources; its extraction contract and its classification step are
    modelled here from the specification (sections 3, 4.1, 4.3 and 9). *)

Module Engine.
Import Js.

(** Modelled from the spec: the SkillOntologyEntry of the data model; the
    ontology maps each canonical id to its entry. *)
Record SkillOntologyEntry : Type := {
  display_name : string;
  aliases : list string;
  category : string;
  default_weight : Q
}.

(** Modelled from the spec: the detector a mention comes from. *)
Inductive Source : Type := exact | pattern | fuzzy | ner.

(** Modelled from the spec: the SkillMention of the data model; a set of
    mentions is a finite map from canonical id to the merged mention. *)
Record SkillMention : Type := {
  confidence : Q;
  source : Source;
  evidence : list (string * Z)
}.

(** Modelled from the spec: the SkillVerdict tagged union. *)
Inductive SkillVerdict : Type :=
  | matched (confidence : Q)
  | missing (importance : Q)
  | nice_to_have (importance : Q).

(** Modelled from the spec: a job-side skill after step 2 of section 4.3,
    its canonical id, its importance and its verdict (the engine's own
    record is not part of the client's sources). *)
Record Classified : Type := {
  canonical_id : string;
  job_importance : Q;
  verdict : SkillVerdict
}.

Section Pipeline.

(** Modelled from the spec: the static ontology, and the parts the
    specification leaves to the implementation (the engine's code is not
    part of the client's sources): the detectors (each a function from text
    to candidate mentions), the merge of two detections of one skill, the
    importance formula, the test that a job-side mention lies in a preferred
    section, and the match threshold. *)
Variable ontology : gmap string SkillOntologyEntry.
Variable detectors : list (string -> list (string * SkillMention)).
Variable corroborate : SkillMention -> SkillMention -> SkillMention.
Variable importance_of : SkillOntologyEntry -> SkillMention -> Q.
Variable preferred : SkillMention -> bool.
Variable match_threshold : Q.

(** Modelled from the spec: the merge step of section 4.1, a reduction keyed
    by canonical id; a candidate that names no ontology entry is dropped. *)
Definition merge_detection (d : string * SkillMention)
    (acc : gmap string SkillMention) : gmap string SkillMention :=
  match ontology !! d.1 with
  | None => acc
  | Some _ =>
      match acc !! d.1 with
      | Some m => <[d.1 := corroborate d.2 m]> acc
      | None => <[d.1 := d.2]> acc
      end
  end.

(** Modelled from the spec: [extract], the detectors composed by the merge
    step. *)
Definition extract (text : string) : gmap string SkillMention :=
  foldr merge_detection ∅ (flat_map (fun detect => detect text) detectors).

(** Modelled from the spec: step 2 of section 4.3 for one job-side skill. *)
Definition classify (resume_mentions : gmap string SkillMention)
    (id : string) (imp : Q) (m : SkillMention) : SkillVerdict :=
  let unmatched := if preferred m then nice_to_have imp else missing imp in
  match resume_mentions !! id with
  | Some r =>
      if Qle_bool match_threshold (confidence r) then matched (confidence r)
      else unmatched
  | None => unmatched
  end.

(** Modelled from the spec: the importance of a job-side mention comes from
    its ontology entry; step 2 then gives the verdict. *)
Definition classify_entry (resume_mentions : gmap string SkillMention)
    (d : string * SkillMention) : option Classified :=
  match ontology !! d.1 with
  | Some entry =>
      let imp := importance_of entry d.2 in
      Some {| canonical_id := d.1; job_importance := imp;
              verdict := classify resume_mentions d.1 imp d.2 |}
  | None => None
  end.

(** Modelled from the spec: the output order, by importance with ties
    broken by alphabetical canonical id. *)
Definition by_importance (a b : Classified) : Z :=
  match Qcompare (job_importance b) (job_importance a) with
  | Lt => -1
  | Gt => 1
  | Eq =>
      match String.compare (canonical_id a) (canonical_id b) with
      | Lt => -1
      | Eq => 0
      | Gt => 1
      end
  end.

(** Modelled from the spec: the entries of matched_skills, missing_skills and
    nice_to_have_skills, in the shape the client reads ([name] carries the
    canonical id). *)
Definition as_matched (c : Classified) : option SkillGapChart.Matched.t :=
  match verdict c with
  | matched conf =>
      Some {| SkillGapChart.Matched.name := canonical_id c;
              SkillGapChart.Matched.confidence := conf |}
  | _ => None
  end.

Definition as_missing (c : Classified) : option SkillGapChart.Gap.t :=
  match verdict c with
  | missing imp =>
      Some {| SkillGapChart.Gap.name := canonical_id c;
              SkillGapChart.Gap.importance := imp |}
  | _ => None
  end.

Definition as_nice_to_have (c : Classified) : option SkillGapChart.Gap.t :=
  match verdict c with
  | nice_to_have imp =>
      Some {| SkillGapChart.Gap.name := canonical_id c;
              SkillGapChart.Gap.importance := imp |}
  | _ => None
  end.

(** Modelled from the spec: the classified job-side skills in output order. *)
Definition classified (resume_mentions job_mentions : gmap string SkillMention)
  : list Classified :=
  sort by_importance
       (omap (classify_entry resume_mentions) (map_to_list job_mentions)).

(** Modelled from the spec: the three skill lists of the AnalysisResult. *)
Definition skill_lists (resume_mentions job_mentions : gmap string SkillMention)
  : SkillGapChart.Analysis :=
  let cs := classified resume_mentions job_mentions in
  {| SkillGapChart.matched_skills := omap as_matched cs;
     SkillGapChart.missing_skills := omap as_missing cs;
     SkillGapChart.nice_to_have_skills := omap as_nice_to_have cs |}.

(** Modelled from the spec: [analyze], as far as the skill lists go. *)
Definition analyze (resume_text job_text : string) : SkillGapChart.Analysis :=
  skill_lists (extract resume_text) (extract job_text).

End Pipeline.

End Engine.

(** * Vocabulary of the statements *)

Import Js.

(** A score in [0,100], by the comparisons of the language. *)
Definition inScoreRange (score : number) : Prop :=
  ge score (lit 0) = true /\ ge (lit 100) score = true.

(** A history with one item in each band. *)
Definition sampleHistory : list HistoryPage.HistoryItem :=
  [ {| HistoryPage.analysis_id := "a1"; HistoryPage.resume_id := "r1";
       HistoryPage.jd_id := "j1"; HistoryPage.score := lit 85;
       HistoryPage.created_at := "2024-01-01T00:00:00" |};
    {| HistoryPage.analysis_id := "a2"; HistoryPage.resume_id := "r1";
       HistoryPage.jd_id := "j2"; HistoryPage.score := Fin (159 # 2);
       HistoryPage.created_at := "2024-01-02T00:00:00" |};
    {| HistoryPage.analysis_id := "a3"; HistoryPage.resume_id := "r2";
       HistoryPage.jd_id := "j2"; HistoryPage.score := lit 0;
       HistoryPage.created_at := "2024-01-03T00:00:00" |} ].

(** The message of a failed request, in the words of the interface
    description: the server's detail, else its message, else 'Server error'
    when the server responded; the connection message when a request went out
    and nothing came back; otherwise the underlying error's message, or the
    fallback. *)
Definition failureMessage (e : Api.AxiosError) : value :=
  if truthy (Api.response e) then
    let data := get (Api.response e) "data" in
    if truthy (opt_member data "detail") then opt_member data "detail"
    else if truthy (opt_member data "message") then opt_member data "message"
    else VStr "Server error"
  else if truthy (Api.request e) then
    VStr "No response from server. Please check your connection."
  else if truthy (Api.error_message e) then Api.error_message e
  else VStr "An unexpected error occurred".

(** The error of a refused connection: a request went out, no response came
    back. *)
Definition connectionRefused : Api.AxiosError :=
  {| Api.response := VUndefined;
     Api.request := VObj ∅;
     Api.error_message := VStr "Network Error" |}.

Definition offline : Api.Net :=
  {| Api.sent := []; Api.server := fun _ _ => Api.Rejected connectionRefused |}.

(** The error of a response with status 404 and a detail. *)
Definition notFoundError : Api.AxiosError :=
  {| Api.response :=
       VObj {[ "status" := VNum (lit 404);
               "data" := VObj {[ "detail" := VStr "Analysis not found" ]} ]};
     Api.request := VObj ∅;
     Api.error_message := VStr "Request failed with status code 404" |}.

Definition notFound : Api.Net :=
  {| Api.sent := []; Api.server := fun _ _ => Api.Rejected notFoundError |}.

(** [state] with its error field set to [msg], everything else as it was. *)
Definition withError (state : AnalysisContext.State) (msg : value)
  : AnalysisContext.State :=
  {| AnalysisContext.resume := AnalysisContext.resume state;
     AnalysisContext.jobDescription := AnalysisContext.jobDescription state;
     AnalysisContext.analysis := AnalysisContext.analysis state;
     AnalysisContext.history := AnalysisContext.history state;
     AnalysisContext.loading := AnalysisContext.loading state;
     AnalysisContext.error := msg;
     AnalysisContext.currentStep := AnalysisContext.currentStep state |}.

(** The state a guarded [performAnalysis] leaves: error, currentStep and
    loading set, the four data fields as they were. *)
Definition afterGuard (state : AnalysisContext.State) : AnalysisContext.State :=
  {| AnalysisContext.resume := AnalysisContext.resume state;
     AnalysisContext.jobDescription := AnalysisContext.jobDescription state;
     AnalysisContext.analysis := AnalysisContext.analysis state;
     AnalysisContext.history := AnalysisContext.history state;
     AnalysisContext.loading := VBool false;
     AnalysisContext.error := VStr AnalysisContext.requiredMessage;
     AnalysisContext.currentStep := VStr "upload" |}.

(** The store after an analysis was started, the documents were reset while
    the request was in flight (the Change button stays on the page), and the
    response then arrived: the dispatches of performAnalysis with a RESET in
    between. *)
Definition resetInFlight : list AnalysisContext.Action :=
  [ {| AnalysisContext.type := "SET_RESUME";
       AnalysisContext.payload := VObj {[ "document_id" := VStr "r1" ]} |};
    {| AnalysisContext.type := "SET_JOB_DESCRIPTION";
       AnalysisContext.payload := VObj {[ "document_id" := VStr "j1" ]} |};
    {| AnalysisContext.type := "SET_LOADING";
       AnalysisContext.payload := VBool true |};
    {| AnalysisContext.type := "SET_CURRENT_STEP";
       AnalysisContext.payload := VStr "analyzing" |};
    AnalysisContext.action "CLEAR_ERROR";
    AnalysisContext.action "RESET";
    {| AnalysisContext.type := "SET_ANALYSIS";
       AnalysisContext.payload := VObj {[ "score" := VNum (lit 72) ]} |};
    {| AnalysisContext.type := "SET_LOADING";
       AnalysisContext.payload := VBool false |} ].

Definition staleResults : AnalysisContext.World :=
  {| AnalysisContext.store :=
       foldl AnalysisContext.analysisReducer AnalysisContext.initialState
             resetInFlight;
     AnalysisContext.net := offline |}.

(** A fresh provider, nothing uploaded yet. *)
Definition freshWorld : AnalysisContext.World :=
  {| AnalysisContext.store := AnalysisContext.initialState;
     AnalysisContext.net := offline |}.

(** Modelled from the spec: a blank field, the test behind EmptyInputError
    (the server's input validation is not part of the client's sources):
    text that is empty or whitespace only. *)
Fixpoint isBlank (s : string) : bool :=
  match s with
  | EmptyString => true
  | String c s' => isWhiteSpace c && isBlank s'
  end.

(** Modelled from the spec: EmptyInputError is raised for an upload all of
    whose fields are blank. *)
Definition emptyInput (entries : list (string * value)) : bool :=
  forallb (fun entry =>
             match entry.2 with
             | VStr text => isBlank text
             | VUndefined | VNull => true
             | _ => false
             end) entries.

(** The requests an upload of [field := content] may put on the wire. *)
Definition isUploadOf (field : string) (content : value) (req : Api.Request)
  : Prop :=
  Api.method req = "post" /\ Api.body req = Api.FormData [(field, content)].

(** A callback that records the texts it is given. *)
Definition recordText (text : string) : eff (list string) value :=
  fun log => (Return VUndefined, (log ++ [text])%list).

(** A job description of 4MB, as a .txt and as a .pdf file. *)
Definition jobFileTxt : DocumentUpload.File :=
  {| DocumentUpload.name := "job-description.txt";
     DocumentUpload.size := 4 * 1024 * 1024 |}.

Definition jobFilePdf : DocumentUpload.File :=
  {| DocumentUpload.name := "Job Description.PDF";
     DocumentUpload.size := 4 * 1024 * 1024 |}.

(** With [upload] as the callback of the component [cw], handleTextUpload
    puts on the wire nothing but uploads of the trimmed input as the field
    'text', none of them an empty input. *)
Definition postsOnlyText (upload : string -> eff AnalysisContext.World value)
    (cw : DocumentUpload.Component AnalysisContext.World) : Prop :=
  exists reqs,
    Api.sent (AnalysisContext.net (DocumentUpload.parent
                (DocumentUpload.handleTextUpload upload cw).2))
    = (Api.sent (AnalysisContext.net (DocumentUpload.parent cw)) ++ reqs)%list
    /\ Forall (fun req =>
         isUploadOf "text" (VStr (trim (DocumentUpload.textInput cw))) req
         /\ emptyInput [("text", VStr (trim (DocumentUpload.textInput cw)))]
            = false) reqs.

(** The canonical ids of the three skill lists of a result, in the order the
    chart concatenates them. *)
Definition classifiedIds (result : SkillGapChart.Analysis) : list string :=
  (map SkillGapChart.Matched.name (SkillGapChart.matched_skills result)
   ++ map SkillGapChart.Gap.name (SkillGapChart.missing_skills result)
   ++ map SkillGapChart.Gap.name (SkillGapChart.nice_to_have_skills result))%list.

(** The scenario of the specification: the job asks for Python and SQL
    (importance 0.6 and 0.4), the resume shows Python only.  One detector,
    which also proposes a term the ontology does not know. *)
Definition sampleOntology : gmap string Engine.SkillOntologyEntry :=
  {[ "python" := {| Engine.display_name := "Python"; Engine.aliases := ["py"];
                    Engine.category := "language";
                    Engine.default_weight := 6 # 10 |};
     "sql" := {| Engine.display_name := "SQL"; Engine.aliases := [];
                 Engine.category := "database";
                 Engine.default_weight := 4 # 10 |} ]}.

Definition sampleMention (c : Q) : Engine.SkillMention :=
  {| Engine.confidence := c; Engine.source := Engine.exact;
     Engine.evidence := [] |}.

Definition sampleDetector (text : string)
  : list (string * Engine.SkillMention) :=
  if String.eqb text "5 years of Python development"
  then [("python", sampleMention (95 # 100))]
  else [("sql", sampleMention (95 # 100)); ("python", sampleMention (95 # 100));
        ("kubernetes", sampleMention (60 # 100))].

Definition sampleAnalysis : SkillGapChart.Analysis :=
  Engine.analyze sampleOntology [sampleDetector] (fun m _ => m)
    (fun entry _ => Engine.default_weight entry) (fun _ => false) (1 # 2)
    "5 years of Python development" "Python and SQL required".

(** The request of [getHistory(limit, offset)]. *)
Definition historyRequest (limit offset : value) : Api.Request :=
  {| Api.method := "get"; Api.url := "/api/v1/history"; Api.body := Api.NoBody;
     Api.params := <["offset" := offset]> (<["limit" := limit]> ∅);
     Api.headers := Api.defaultHeaders |}.

(** The request of [analyzeResume(resumeId, jdId, targetRole)]. *)
Definition analyzeRequest (resumeId jdId targetRole : value) : Api.Request :=
  {| Api.method := "post"; Api.url := "/api/v1/analyze";
     Api.body := Api.Json (Api.analyzePayload resumeId jdId targetRole);
     Api.params := ∅; Api.headers := ∅ ∪ Api.defaultHeaders |}.

(** The calls of the API module, one constructor per exported function. *)
Inductive ApiCall : Type :=
  | UploadResume (formData : list (string * value))
  | UploadJobDescription (formData : list (string * value))
  | AnalyzeResume (resumeId jdId targetRole : value)
  | GetHistory (limit offset : value)
  | GetAnalysis (analysisId : string)
  | DeleteAnalysis (analysisId : string)
  | DeleteDocument (documentId : string)
  | HealthCheck
  | GetSystemStats
  | GetApiInfo.

Definition runCall (c : ApiCall) : eff Api.Net value :=
  match c with
  | UploadResume formData => Api.uploadResume formData
  | UploadJobDescription formData => Api.uploadJobDescription formData
  | AnalyzeResume resumeId jdId targetRole =>
      Api.analyzeResume resumeId jdId targetRole
  | GetHistory limit offset => Api.getHistory limit offset
  | GetAnalysis analysisId => Api.getAnalysis analysisId
  | DeleteAnalysis analysisId => Api.deleteAnalysis analysisId
  | DeleteDocument documentId => Api.deleteDocument documentId
  | HealthCheck => Api.healthCheck
  | GetSystemStats => Api.getSystemStats
  | GetApiInfo => Api.getApiInfo
  end.

(** A request without a body, under the default headers. *)
Definition plainRequest (method url : string) : Api.Request :=
  {| Api.method := method; Api.url := url; Api.body := Api.NoBody;
     Api.params := ∅; Api.headers := Api.defaultHeaders |}.

(** The form post of an upload. *)
Definition formRequest (url : string) (formData : list (string * value))
  : Api.Request :=
  {| Api.method := "post"; Api.url := url; Api.body := Api.FormData formData;
     Api.params := ∅; Api.headers := Api.multipart ∪ Api.defaultHeaders |}.

(** The request a call hands to the axios instance (lemma [runCall_issues]). *)
Definition requestOf (c : ApiCall) : Api.Request :=
  match c with
  | UploadResume formData => formRequest "/api/v1/upload-resume" formData
  | UploadJobDescription formData => formRequest "/api/v1/upload-job" formData
  | AnalyzeResume resumeId jdId targetRole =>
      analyzeRequest resumeId jdId
        (match targetRole with VUndefined => VNull | _ => targetRole end)
  | GetHistory limit offset =>
      historyRequest
        (match limit with VUndefined => VNum (lit 20) | _ => limit end)
        (match offset with VUndefined => VNum (lit 0) | _ => offset end)
  | GetAnalysis analysisId => plainRequest "get" ("/api/v1/analysis/" ++ analysisId)
  | DeleteAnalysis analysisId =>
      plainRequest "delete" ("/api/v1/analysis/" ++ analysisId)
  | DeleteDocument documentId =>
      plainRequest "delete" ("/api/v1/document/" ++ documentId)
  | HealthCheck => plainRequest "get" "/api/v1/health"
  | GetSystemStats => plainRequest "get" "/api/v1/stats"
  | GetApiInfo => plainRequest "get" "/api"
  end.

(** The calls that hand the body of the response back as it is: all but
    getHistory, which reads the items out of it. *)
Definition returnsBody (c : ApiCall) : bool :=
  match c with GetHistory _ _ => false | _ => true end.

(** The error the interceptor throws for the rejection [e]. *)
Definition thrownFor (e : Api.AxiosError) : JsError :=
  new_Error (failureMessage e).

(** A validation failure as the server reports it: status 422 with a list of
    problems as detail. *)
Definition validationError : Api.AxiosError :=
  {| Api.response :=
       VObj {[ "status" := VNum (lit 422);
               "data" := VObj {[ "detail" :=
                                   VArr [VObj {[ "msg" := VStr "field required" ]}] ]} ]};
     Api.request := VObj ∅;
     Api.error_message := VStr "Request failed with status code 422" |}.

Definition unprocessable : Api.Net :=
  {| Api.sent := []; Api.server := fun _ _ => Api.Rejected validationError |}.

(** The four uploads of the provider. *)
Inductive Upload : Type :=
  | ResumeFile (file : value)
  | ResumeText (text : string)
  | JobDescriptionFile (file : value)
  | JobDescriptionText (text : string).

Definition runUpload (u : Upload) : eff AnalysisContext.World value :=
  match u with
  | ResumeFile file => AnalysisContext.uploadResumeFile file
  | ResumeText text => AnalysisContext.uploadResumeText text
  | JobDescriptionFile file => AnalysisContext.uploadJobDescriptionFile file
  | JobDescriptionText text => AnalysisContext.uploadJobDescriptionText text
  end.

(** The request an upload issues (lemma [runUpload_run]). *)
Definition uploadRequest (u : Upload) : Api.Request :=
  match u with
  | ResumeFile file => formRequest "/api/v1/upload-resume" [("file", file)]
  | ResumeText text => formRequest "/api/v1/upload-resume" [("text", VStr text)]
  | JobDescriptionFile file => formRequest "/api/v1/upload-job" [("file", file)]
  | JobDescriptionText text =>
      formRequest "/api/v1/upload-job" [("text", VStr text)]
  end.

Definition forResume (u : Upload) : bool :=
  match u with ResumeFile _ | ResumeText _ => true | _ => false end.

(** A server that answers every request with status 200 and one body. *)
Definition answering (data : value) : Api.Net :=
  {| Api.sent := [];
     Api.server := fun _ _ => Api.Fulfilled {| Api.status := 200; Api.data := data |} |}.

(** A history body with two items, and a document body. *)
Definition historyBody : value :=
  VObj {[ "items" := VArr [VObj {[ "analysis_id" := VStr "a1" ]};
                           VObj {[ "analysis_id" := VStr "a2" ]}] ]}.

Definition documentBody : value :=
  VObj {[ "document_id" := VStr "r1" ]}.

(** [state] with one field replaced. *)
Definition withHistory (state : AnalysisContext.State) (h : value)
  : AnalysisContext.State :=
  {| AnalysisContext.resume := AnalysisContext.resume state;
     AnalysisContext.jobDescription := AnalysisContext.jobDescription state;
     AnalysisContext.analysis := AnalysisContext.analysis state;
     AnalysisContext.history := h;
     AnalysisContext.loading := AnalysisContext.loading state;
     AnalysisContext.error := AnalysisContext.error state;
     AnalysisContext.currentStep := AnalysisContext.currentStep state |}.

(** The store an upload leaves: [resume] and [jobDescription] as given,
    [error] as given, loading over, the rest as in [state]. *)
Definition afterUpload (state : AnalysisContext.State)
    (resume jobDescription error : value) : AnalysisContext.State :=
  {| AnalysisContext.resume := resume;
     AnalysisContext.jobDescription := jobDescription;
     AnalysisContext.analysis := AnalysisContext.analysis state;
     AnalysisContext.history := AnalysisContext.history state;
     AnalysisContext.loading := VBool false;
     AnalysisContext.error := error;
     AnalysisContext.currentStep := AnalysisContext.currentStep state |}.

(** A provider with both documents uploaded, on the network [n]. *)
Definition readyWorld (n : Api.Net) : AnalysisContext.World :=
  {| AnalysisContext.store :=
       afterUpload AnalysisContext.initialState
         (VObj {[ "document_id" := VStr "r1" ]})
         (VObj {[ "document_id" := VStr "j1" ]}) VNull;
     AnalysisContext.net := n |}.

(** The store a completed analysis leaves: the result under [analysis], the
    results step, no error, loading over, and [h] as history. *)
Definition afterAnalysis (state : AnalysisContext.State) (result h : value)
  : AnalysisContext.State :=
  {| AnalysisContext.resume := AnalysisContext.resume state;
     AnalysisContext.jobDescription := AnalysisContext.jobDescription state;
     AnalysisContext.analysis := result;
     AnalysisContext.history := h;
     AnalysisContext.loading := VBool false;
     AnalysisContext.error := VNull;
     AnalysisContext.currentStep := VStr "results" |}.

(** The store a failed analysis leaves: the message under [error], back on
    the upload step, loading over, the data fields as in [state]. *)
Definition afterFailedAnalysis (state : AnalysisContext.State) (msg : value)
  : AnalysisContext.State :=
  {| AnalysisContext.resume := AnalysisContext.resume state;
     AnalysisContext.jobDescription := AnalysisContext.jobDescription state;
     AnalysisContext.analysis := AnalysisContext.analysis state;
     AnalysisContext.history := AnalysisContext.history state;
     AnalysisContext.loading := VBool false;
     AnalysisContext.error := msg;
     AnalysisContext.currentStep := VStr "upload" |}.

(** The analyze request performAnalysis sends from the store [state]. *)
Definition analyzeRequestOf (state : AnalysisContext.State) (targetRole : value)
  : Api.Request :=
  analyzeRequest (get (AnalysisContext.resume state) "document_id")
                 (get (AnalysisContext.jobDescription state) "document_id")
                 targetRole.

(** The page after a delete that could not be carried out: the failure
    alert raised, nothing marked as being deleted, the rest as in [p]. *)
Definition deleteFailed {W} (p : HistoryPage.Page W) : HistoryPage.Page W :=
  {| HistoryPage.currentPage := HistoryPage.currentPage p;
     HistoryPage.deletingId := None;
     HistoryPage.alerts :=
       HistoryPage.alerts p ++ ["Failed to delete analysis. Please try again."];
     HistoryPage.reloads := HistoryPage.reloads p;
     HistoryPage.context := HistoryPage.context p |}.

(** A string without a dot. *)
Fixpoint noDot (s : string) : bool :=
  match s with
  | EmptyString => true
  | String c s' => negb (Ascii.eqb c ".") && noDot s'
  end.

(** A file of one kilobyte with the given name. *)
Definition fileNamed (name : string) : DocumentUpload.File :=
  {| DocumentUpload.name := name; DocumentUpload.size := 1024 |}.

(** A component with nothing selected and nothing typed, over the world
    [w]. *)
Definition emptyComponent {W} (w : W) : DocumentUpload.Component W :=
  {| DocumentUpload.dragActive := false; DocumentUpload.selectedFile := None;
     DocumentUpload.textInput := ""; DocumentUpload.showTextInput := false;
     DocumentUpload.alerts := []; DocumentUpload.parent := w |}.

(** The order of the chart: [x] may stand before [y]. *)
Definition noLessImportant (x y : SkillGapChart.ChartDatum) : Prop :=
  (SkillGapChart.importance y <= SkillGapChart.importance x)%Z.

(** The comparator prepareChartData sorts with. *)
Definition byImportance (a b : SkillGapChart.ChartDatum) : Z :=
  (SkillGapChart.importance b - SkillGapChart.importance a)%Z.

(** Every confidence and importance of the result lies in [0,1]. *)
Definition unitWeights (analysis : SkillGapChart.Analysis) : Prop :=
  Forall (fun skill => 0 <= SkillGapChart.Matched.confidence skill <= 1)%Q
         (SkillGapChart.matched_skills analysis)
  /\ Forall (fun skill => 0 <= SkillGapChart.Gap.importance skill <= 1)%Q
            (SkillGapChart.missing_skills analysis)
  /\ Forall (fun skill => 0 <= SkillGapChart.Gap.importance skill <= 1)%Q
            (SkillGapChart.nice_to_have_skills analysis).

(** The rows of the skills the resume lacks. *)
Definition gapRows (analysis : SkillGapChart.Analysis)
  : list SkillGapChart.ChartDatum :=
  (map SkillGapChart.missingDatum (SkillGapChart.missing_skills analysis)
   ++ map SkillGapChart.niceToHaveDatum
        (SkillGapChart.nice_to_have_skills analysis))%list.

(** A result with sixteen matched skills and one missing skill of full
    importance. *)
Definition crowdedAnalysis : SkillGapChart.Analysis :=
  {| SkillGapChart.matched_skills :=
       map (fun i => {| SkillGapChart.Matched.name := "skill-" ++ pretty i;
                        SkillGapChart.Matched.confidence := 1 # 2 |})
           (seq 0 16);
     SkillGapChart.missing_skills :=
       [ {| SkillGapChart.Gap.name := "kubernetes";
            SkillGapChart.Gap.importance := 1 |} ];
     SkillGapChart.nice_to_have_skills := [] |}.

(** * Properties *)

(** ** Score bands *)

Section ScoreBands.

Lemma lt_negb_ge (x : number) (k : Z) :
  x <> NaN -> lt x (lit k) = negb (ge x (lit k)).
Proof. destruct x; simpl; congruence. Qed.

Lemma ge_80_60 (x : number) : ge x (lit 80) = true -> ge x (lit 60) = true.
Proof.
  destruct x as [| | |q]; simpl; try congruence.
  rewrite !Qle_bool_iff. intros H.
  apply Qle_trans with (y := inject_Z 80); [|exact H].
  rewrite <- Zle_Qle. lia.
Qed.

Lemma inScoreRange_not_NaN (x : number) : inScoreRange x -> x <> NaN.
Proof. intros [H _] ->. discriminate H. Qed.

(** On a number that is not NaN exactly one of the three filter predicates of
    the stats summary holds. *)
Lemma band_predicates_exclusive (x : number) :
  x <> NaN ->
  (Nat.b2n (ge x (lit 80))
   + Nat.b2n (ge x (lit 60) && lt x (lit 80))
   + Nat.b2n (lt x (lit 60)) = 1)%nat.
Proof.
  intros Hx. rewrite !lt_negb_ge by exact Hx.
  pose proof (ge_80_60 x) as H.
  destruct (ge x (lit 80)), (ge x (lit 60)); simpl; try reflexivity.
  discriminate (H eq_refl).
Qed.

Lemma filter_length_cons {A} (f : A -> bool) (a : A) (l : list A) :
  length (List.filter f (a :: l)) = (Nat.b2n (f a) + length (List.filter f l))%nat.
Proof. simpl. destruct (f a); reflexivity. Qed.

End ScoreBands.

(** C9. For every score the classifiers of HistoryPage and AnalysisResults
    put it in the same band: 'Strong' with 'Strong Match', 'Moderate' with
    'Moderate Match', 'Low' with 'Low Match'; and both getScoreColor
    functions switch colour at the same thresholds, 80 and 60. *)
Theorem score_bands_agree (score : number) :
  (HistoryPage.getScoreBand score = "Strong"
     <-> AnalysisResults.getScoreBand score = "Strong Match")
  /\ (HistoryPage.getScoreBand score = "Moderate"
     <-> AnalysisResults.getScoreBand score = "Moderate Match")
  /\ (HistoryPage.getScoreBand score = "Low"
     <-> AnalysisResults.getScoreBand score = "Low Match")
  /\ (HistoryPage.getScoreColor score = "text-green-600 bg-green-100"
     <-> ge score (lit 80) = true)
  /\ (AnalysisResults.getScoreColor score = "text-green-600"
     <-> ge score (lit 80) = true)
  /\ (HistoryPage.getScoreColor score = "text-yellow-600 bg-yellow-100"
     <-> ge score (lit 80) = false /\ ge score (lit 60) = true)
  /\ (AnalysisResults.getScoreColor score = "text-yellow-600"
     <-> ge score (lit 80) = false /\ ge score (lit 60) = true)
  /\ (HistoryPage.getScoreColor score = "text-red-600 bg-red-100"
     <-> ge score (lit 80) = false /\ ge score (lit 60) = false)
  /\ (AnalysisResults.getScoreColor score = "text-red-600"
     <-> ge score (lit 80) = false /\ ge score (lit 60) = false).
Proof.
  unfold HistoryPage.getScoreBand, AnalysisResults.getScoreBand,
    HistoryPage.getScoreColor, AnalysisResults.getScoreColor.
  destruct (ge score (lit 80)), (ge score (lit 60));
    repeat split; intros; try discriminate; try tauto;
    match goal with H : _ /\ _ |- _ => destruct H; discriminate end.
Qed.

(** C6. On a history whose scores all lie in [0,100] the three counters of
    the summary (score >= 80, 60 <= score < 80, score < 60) add up to the
    number of items, and getScoreBand gives each item the band of the one
    counter that counts it. *)
Theorem history_counters_partition (history : list HistoryPage.HistoryItem) :
  Forall (fun item => inScoreRange (HistoryPage.score item)) history ->
  (HistoryPage.strongMatches history + HistoryPage.moderateMatches history
   + HistoryPage.lowMatches history = HistoryPage.totalAnalyses history)%nat
  /\ Forall (fun item =>
       let s := HistoryPage.score item in
       (HistoryPage.getScoreBand s = "Strong" /\ ge s (lit 80) = true
          /\ (ge s (lit 60) && lt s (lit 80)) = false /\ lt s (lit 60) = false)
       \/ (HistoryPage.getScoreBand s = "Moderate" /\ ge s (lit 80) = false
          /\ (ge s (lit 60) && lt s (lit 80)) = true /\ lt s (lit 60) = false)
       \/ (HistoryPage.getScoreBand s = "Low" /\ ge s (lit 80) = false
          /\ (ge s (lit 60) && lt s (lit 80)) = false /\ lt s (lit 60) = true))
     history.
Proof.
  unfold HistoryPage.strongMatches, HistoryPage.moderateMatches,
    HistoryPage.lowMatches, HistoryPage.totalAnalyses.
  induction 1 as [|item l Hitem _ [IHsum IHband]].
  - split; [reflexivity | constructor].
  - apply inScoreRange_not_NaN in Hitem. split.
    + rewrite !filter_length_cons.
      pose proof (band_predicates_exclusive _ Hitem) as Hone.
      simpl length. lia.
    + constructor; [|exact IHband].
      cbv zeta. unfold HistoryPage.getScoreBand.
      rewrite !lt_negb_ge by exact Hitem.
      pose proof (ge_80_60 (HistoryPage.score item)) as H.
      destruct (ge (HistoryPage.score item) (lit 80)),
        (ge (HistoryPage.score item) (lit 60)); simpl; auto 10.
      discriminate (H eq_refl).
Qed.

Lemma history_counters_partition_witness :
  Forall (fun item => inScoreRange (HistoryPage.score item)) sampleHistory
  /\ (HistoryPage.strongMatches sampleHistory
      + HistoryPage.moderateMatches sampleHistory
      + HistoryPage.lowMatches sampleHistory = 3)%nat.
Proof.
  assert (Hrange : Forall (fun item => inScoreRange (HistoryPage.score item))
                          sampleHistory).
  { repeat constructor. }
  split; [exact Hrange|].
  exact (proj1 (history_counters_partition sampleHistory Hrange)).
Defined.

(** ** The reducer *)

(** C10. RESET puts resume, jobDescription, analysis, loading, error and
    currentStep back to their initial values and keeps history; and the
    reducer changes history on SET_HISTORY only, where it becomes the
    payload. *)
Theorem reset_frame (state : AnalysisContext.State) (a : AnalysisContext.Action)
    (w : AnalysisContext.World) :
  let r := AnalysisContext.analysisReducer state (AnalysisContext.action "RESET") in
  AnalysisContext.resume r = AnalysisContext.resume AnalysisContext.initialState
  /\ AnalysisContext.jobDescription r
     = AnalysisContext.jobDescription AnalysisContext.initialState
  /\ AnalysisContext.analysis r
     = AnalysisContext.analysis AnalysisContext.initialState
  /\ AnalysisContext.loading r
     = AnalysisContext.loading AnalysisContext.initialState
  /\ AnalysisContext.error r = AnalysisContext.error AnalysisContext.initialState
  /\ AnalysisContext.currentStep r
     = AnalysisContext.currentStep AnalysisContext.initialState
  /\ AnalysisContext.history r = AnalysisContext.history state
  /\ AnalysisContext.reset w
     = (Return tt,
        {| AnalysisContext.store :=
             AnalysisContext.analysisReducer (AnalysisContext.store w)
               (AnalysisContext.action "RESET");
           AnalysisContext.net := AnalysisContext.net w |})
  /\ AnalysisContext.history (AnalysisContext.analysisReducer state a)
     = if String.eqb (AnalysisContext.type a) "SET_HISTORY"
       then AnalysisContext.payload a
       else AnalysisContext.history state.
Proof.
  cbv zeta. repeat split.
  destruct a as [t p]. unfold AnalysisContext.analysisReducer.
  cbn [AnalysisContext.type AnalysisContext.payload].
  destruct (String.eqb_spec t "SET_HISTORY") as [->|_]; [reflexivity|].
  repeat (destruct (String.eqb t _); [reflexivity|]).
  reflexivity.
Qed.

(** ** services/api.js *)

Section ApiCalls.

Lemma or_spec (a b : value) : or a b = if truthy a then a else b.
Proof. reflexivity. Qed.

(** The error handler of the response interceptor throws the message of the
    fixed priority. *)
Lemma responseRejected_message (e : Api.AxiosError) :
  Api.responseRejected e = Throw (new_Error (failureMessage e)).
Proof.
  unfold Api.responseRejected, failureMessage.
  destruct (truthy (Api.response e)).
  - f_equal. f_equal. rewrite !or_spec.
    destruct (truthy (opt_member _ "detail")) eqn:Hd.
    + rewrite Hd. reflexivity.
    + destruct (truthy (opt_member _ "message")); reflexivity.
  - destruct (truthy (Api.request e)); [reflexivity|].
    rewrite or_spec. destruct (truthy (Api.error_message e)); reflexivity.
Qed.

Lemma dispatchRequest_sent (req : Api.Request) (n : Api.Net) :
  Api.sent (Api.dispatchRequest req n).2 = (Api.sent n ++ [req])%list.
Proof. reflexivity. Qed.

(** A call of the shape [try { ... await request ... } catch (e) { throw e }]
    completes as its continuation does on the body of a fulfilled request,
    and with the interceptor's error on a rejected one. *)
Lemma rethrow_completion {A} (req : Api.Request) (k : value -> eff Api.Net A)
    (n : Api.Net) :
  (tryCatch (bind (Api.dispatchRequest req) k) (fun error => throw error) n).1
  = match Api.server n (Api.sent n) req with
    | Api.Fulfilled r =>
        (k (Api.data r)
           {| Api.sent := Api.sent n ++ [req]; Api.server := Api.server n |}).1
    | Api.Rejected e => Throw (new_Error (failureMessage e))
    end.
Proof.
  unfold tryCatch, bind, Api.dispatchRequest.
  destruct (Api.server n (Api.sent n) req) as [r|e].
  - cbn [Api.responseFulfilled]. destruct (k _ _) as [[a|err] n']; reflexivity.
  - rewrite responseRejected_message. reflexivity.
Qed.

(** When its continuation issues nothing, such a call issues one request. *)
Lemma rethrow_net {A} (req : Api.Request) (k : value -> eff Api.Net A)
    (n : Api.Net) :
  (forall v n', (k v n').2 = n') ->
  (tryCatch (bind (Api.dispatchRequest req) k) (fun error => throw error) n).2
  = {| Api.sent := Api.sent n ++ [req]; Api.server := Api.server n |}.
Proof.
  intros Hk. unfold tryCatch, bind, Api.dispatchRequest.
  destruct (Api.server n (Api.sent n) req) as [r|e].
  - cbn [Api.responseFulfilled].
    match goal with |- context [k ?v ?m] => specialize (Hk v m);
      destruct (k v m) as [[a|err] n'] end; cbn [snd] in *; subst; reflexivity.
  - rewrite responseRejected_message. reflexivity.
Qed.

Lemma getHistory_continuation (v : value) (n' : Api.Net) :
  (match member v "items" with
   | Return items => ret (or items (VArr []))
   | Throw e => throw e
   end n').2 = n'.
Proof. destruct (member v "items"); reflexivity. Qed.

(** [requestOf] is the request the call issues, and the only one. *)
Lemma runCall_issues (c : ApiCall) (n : Api.Net) :
  (runCall c n).2
  = {| Api.sent := Api.sent n ++ [requestOf c]; Api.server := Api.server n |}.
Proof.
  destruct c as [fd|fd|r j t|l o| | | | | | ]; cbn [runCall requestOf];
    try (apply rethrow_net; intros; reflexivity).
  - unfold Api.getHistory, Api.get_. cbv zeta.
    rewrite rethrow_net by (intros; apply getHistory_continuation).
    destruct l, o; reflexivity.
Qed.

(** The completion of a call, by the outcome of its request. *)
Lemma runCall_completion (c : ApiCall) (n : Api.Net) :
  (runCall c n).1
  = match Api.server n (Api.sent n) (requestOf c) with
    | Api.Fulfilled r =>
        if returnsBody c then Return (Api.data r)
        else match member (Api.data r) "items" with
             | Return items => Return (or items (VArr []))
             | Throw err => Throw err
             end
    | Api.Rejected e => Throw (thrownFor e)
    end.
Proof.
  unfold thrownFor.
  destruct c as [fd|fd|r j t|l o| | | | | | ]; cbn [runCall requestOf returnsBody];
    try (unfold Api.uploadResume, Api.uploadJobDescription, Api.getAnalysis,
           Api.deleteAnalysis, Api.deleteDocument, Api.healthCheck,
           Api.getSystemStats, Api.getApiInfo, Api.post, Api.get_, Api.delete_;
         rewrite rethrow_completion; reflexivity).
  - unfold Api.analyzeResume, Api.post. cbv zeta. rewrite rethrow_completion.
    destruct t; reflexivity.
  - unfold Api.getHistory, Api.get_. cbv zeta. rewrite rethrow_completion.
    assert (E : forall req,
      match Api.server n (Api.sent n) req with
      | Api.Fulfilled r0 =>
          (match member (Api.data r0) "items" with
           | Return items => ret (or items (VArr []))
           | Throw e => throw e
           end {| Api.sent := Api.sent n ++ [req]; Api.server := Api.server n |}).1
      | Api.Rejected e => Throw (new_Error (failureMessage e))
      end
      = match Api.server n (Api.sent n) req with
        | Api.Fulfilled r0 =>
            match member (Api.data r0) "items" with
            | Return items => Return (or items (VArr []))
            | Throw err => Throw err
            end
        | Api.Rejected e => Throw (new_Error (failureMessage e))
        end).
    { intros req. destruct (Api.server n (Api.sent n) req) as [r0|e];
        [destruct (member (Api.data r0) "items")|]; reflexivity. }
    destruct l, o; apply E.
Qed.

(** The value the interceptor hands to [new Error] is never falsy. *)
Lemma failureMessage_truthy (e : Api.AxiosError) :
  truthy (failureMessage e) = true.
Proof.
  unfold failureMessage.
  destruct (truthy (Api.response e)).
  - destruct (truthy (opt_member _ "detail")) eqn:Hd; [exact Hd|].
    destruct (truthy (opt_member _ "message")) eqn:Hm; [exact Hm|reflexivity].
  - destruct (truthy (Api.request e)); [reflexivity|].
    destruct (truthy (Api.error_message e)) eqn:Hm; [exact Hm|reflexivity].
Qed.

(** [new Error(v)] for a truthy [v]: the message is the string conversion of
    [v]; the TypeError of the conversion comes instead when it has none. *)
Lemma new_Error_truthy (v : value) :
  truthy v = true ->
  match ToString v with
  | Some text => new_Error v = {| name := "Error"; message := text |}
  | None => new_Error v = new_TypeError "Cannot convert object to primitive value"
  end.
Proof.
  intros Hv. destruct v; try discriminate Hv; unfold new_Error;
    match goal with |- context [ToString ?x] => destruct (ToString x) end;
    reflexivity.
Qed.

End ApiCalls.

(** C2, as stated, fails.  A call can fail although the server responded
    without detail and without message, and then the message is not 'Server
    error': getHistory on a 200 response with a null body throws the engine's
    TypeError for reading [items].  And the message of a rejected call is the
    string made from the chosen value, not the value: for the list of
    problems of a 422 it is '[object Object]'. *)
Lemma failed_call_message_counterexample :
  (Api.server (answering VNull) (Api.sent (answering VNull))
              (requestOf (GetHistory VUndefined VUndefined))
   = Api.Fulfilled {| Api.status := 200; Api.data := VNull |}
   /\ exists err,
        (Api.getHistory VUndefined VUndefined (answering VNull)).1 = Throw err
        /\ name err = "TypeError"
        /\ message err <> "Server error")
  /\ (Api.server unprocessable (Api.sent unprocessable)
                 (requestOf (AnalyzeResume (VStr "r1") (VStr "j1") VNull))
      = Api.Rejected validationError
      /\ failureMessage validationError
         = VArr [VObj {[ "msg" := VStr "field required" ]}]
      /\ exists err,
           (Api.analyzeResume (VStr "r1") (VStr "j1") VNull unprocessable).1
           = Throw err
           /\ message err = "[object Object]").
Proof.
  split.
  - split; [reflexivity|]. eexists. split; [reflexivity|].
    split; [reflexivity|discriminate].
  - split; [reflexivity|]. split; [reflexivity|].
    eexists. split; reflexivity.
Qed.

(** C2, amended.  When the transport rejects the request of an API call with
    [e], the call throws one error to the caller: an Error whose message is
    the string made from the value of the fixed priority (detail, else
    message, else 'Server error' when the server responded; the connection
    message when a request went out and no response came; otherwise the
    error's own message, or 'An unexpected error occurred'), which is the
    value itself when it is a string; when that value is an object that
    cannot be made a string, the TypeError of the conversion.  The rejected
    request is the only one the call has issued. *)
Theorem failed_call_message (c : ApiCall) (n : Api.Net) (e : Api.AxiosError) :
  Api.server n (Api.sent n) (requestOf c) = Api.Rejected e ->
  exists err,
    (runCall c n).1 = Throw err
    /\ match ToString (failureMessage e) with
       | Some text => name err = "Error" /\ message err = text
       | None => name err = "TypeError"
       end
    /\ match failureMessage e with
       | VStr text => message err = text
       | _ => True
       end
    /\ Api.sent (runCall c n).2 = (Api.sent n ++ [requestOf c])%list.
Proof.
  intros H. exists (thrownFor e).
  rewrite runCall_completion, runCall_issues, H. split; [reflexivity|].
  unfold thrownFor.
  pose proof (new_Error_truthy _ (failureMessage_truthy e)) as Hnew.
  split; [|split; [|reflexivity]].
  - destruct (ToString (failureMessage e)); rewrite Hnew; [split|]; reflexivity.
  - destruct (failureMessage e); try exact I. reflexivity.
Qed.

Lemma failed_call_message_witness :
  Api.server notFound (Api.sent notFound) (requestOf (GetAnalysis "42"))
  = Api.Rejected notFoundError
  /\ exists err,
       (Api.getAnalysis "42" notFound).1 = Throw err
       /\ name err = "Error"
       /\ message err = "Analysis not found".
Proof.
  split; [reflexivity|].
  destruct (failed_call_message (GetAnalysis "42") notFound notFoundError eq_refl)
    as (err & Hthrow & Hmessage & _).
  exists err. split; [exact Hthrow|]. exact Hmessage.
Defined.

(** C1. analyzeResume(resumeId, jdId, targetRole) issues one request, a POST
    to /api/v1/analyze whose payload has resume_id = resumeId and
    jd_id = jdId, has target_role = targetRole exactly when targetRole is
    truthy, and has no other field; null, undefined and the empty string are
    not truthy, so for them target_role is absent. *)
Theorem analyzeResume_payload (resumeId jdId targetRole : value) (n : Api.Net) :
  exists (req : Api.Request) (payload : gmap string value),
    Api.sent (Api.analyzeResume resumeId jdId targetRole n).2 = (Api.sent n ++ [req])%list
    /\ Api.method req = "post"
    /\ Api.url req = "/api/v1/analyze"
    /\ Api.body req = Api.Json payload
    /\ payload !! "resume_id" = Some resumeId
    /\ payload !! "jd_id" = Some jdId
    /\ payload !! "target_role"
       = (if truthy targetRole then Some targetRole else None)
    /\ dom payload ⊆ ({[ "resume_id"; "jd_id"; "target_role" ]} : gset string)
    /\ truthy VNull = false
    /\ truthy VUndefined = false
    /\ truthy (VStr "") = false.
Proof.
  set (role := default_param targetRole VNull).
  exists {| Api.method := "post"; Api.url := "/api/v1/analyze";
            Api.body := Api.Json (Api.analyzePayload resumeId jdId role);
            Api.params := ∅; Api.headers := ∅ ∪ Api.defaultHeaders |},
         (Api.analyzePayload resumeId jdId role).
  assert (Hrole : truthy role = truthy targetRole
                  /\ (truthy targetRole = true -> role = targetRole)).
  { subst role. destruct targetRole; split; intros; try reflexivity; discriminate. }
  destruct Hrole as [Ht Hr].
  split.
  { unfold Api.analyzeResume, Api.post, tryCatch, bind. fold role.
    destruct (Api.dispatchRequest _ n) as [[a|err] n'] eqn:Hd;
      pose proof (dispatchRequest_sent
        {| Api.method := "post"; Api.url := "/api/v1/analyze";
           Api.body := Api.Json (Api.analyzePayload resumeId jdId role);
           Api.params := ∅; Api.headers := ∅ ∪ Api.defaultHeaders |} n) as Hs;
      rewrite Hd in Hs; cbn in *; exact Hs. }
  repeat split.
  - unfold Api.analyzePayload. destruct (truthy role); by simplify_map_eq.
  - unfold Api.analyzePayload. destruct (truthy role); by simplify_map_eq.
  - unfold Api.analyzePayload. rewrite Ht.
    destruct (truthy targetRole) eqn:E.
    + rewrite (Hr eq_refl). by simplify_map_eq.
    + by simplify_map_eq.
  - unfold Api.analyzePayload.
    destruct (truthy role); rewrite !dom_insert_L, dom_empty_L;
      set_unfold; tauto.
Qed.

(** ** AnalysisPage *)

Section Analyze.

(** Past the guard, the first request of handleAnalyze is the analyze call,
    with the documents' ids and the role input, an empty input as [null]. *)
Lemma handleAnalyze_payload (role : string) (w : AnalysisContext.World) :
  truthy (AnalysisContext.resume (AnalysisContext.store w)) = true ->
  truthy (AnalysisContext.jobDescription (AnalysisContext.store w)) = true ->
  exists req rest,
    Api.sent (AnalysisContext.net (AnalysisPage.handleAnalyze role w).2)
    = (Api.sent (AnalysisContext.net w) ++ req :: rest)%list
    /\ Api.url req = "/api/v1/analyze"
    /\ Api.body req
       = Api.Json (Api.analyzePayload
                     (get (AnalysisContext.resume (AnalysisContext.store w))
                          "document_id")
                     (get (AnalysisContext.jobDescription (AnalysisContext.store w))
                          "document_id")
                     (or (VStr role) VNull)).
Proof.
  intros Hr Hj.
  assert (Hrole : default_param (or (VStr role) VNull) VNull
                  = or (VStr role) VNull).
  { unfold or. destruct (truthy (VStr role)); reflexivity. }
  eexists {| Api.method := "post"; Api.url := "/api/v1/analyze";
             Api.body := Api.Json _; Api.params := ∅;
             Api.headers := ∅ ∪ Api.defaultHeaders |}.
  unfold AnalysisPage.handleAnalyze, AnalysisContext.performAnalysis,
    tryFinally, tryCatch, bind.
  rewrite Hr, Hj, Hrole. cbn [negb orb].
  unfold AnalysisContext.dispatch, AnalysisContext.api, zoom,
    Api.analyzeResume, Api.post, Api.dispatchRequest, tryCatch, bind, ret, throw.
  rewrite Hrole.
  cbn [AnalysisContext.net AnalysisContext.store fst snd].
  match goal with
  | |- context [Api.server ?n ?l ?r] => destruct (Api.server n l r) as [resp|err]
  end.
  - unfold Api.responseFulfilled, AnalysisContext.loadHistory,
      Api.getHistory, Api.get_, Api.dispatchRequest, tryCatch, bind,
      AnalysisContext.api, zoom, AnalysisContext.dispatch, ret, throw.
    cbn [AnalysisContext.net AnalysisContext.store fst snd].
    match goal with
    | |- context [Api.server ?n ?l ?r] => destruct (Api.server n l r) as [resp'|err']
    end.
    + unfold Api.responseFulfilled.
      destruct (member (Api.data resp') "items");
        cbn; eexists; (split; [|split]; [|reflexivity|reflexivity]);
        rewrite <- app_assoc; reflexivity.
    + rewrite responseRejected_message.
      cbn; eexists; (split; [|split]; [|reflexivity|reflexivity]);
        rewrite <- app_assoc; reflexivity.
  - rewrite responseRejected_message.
    cbn; exists []; (split; [|split]; reflexivity).
Qed.

End Analyze.

(** ** performAnalysis *)

(** C3, as stated, fails: after a reset during an analysis in flight the
    store has no resume but holds an analysis and shows the results step;
    the guarded call then leaves the analysis in place (it is not null) and
    moves currentStep, so the state is not its old self with only the error
    field changed. *)
Lemma performAnalysis_guard_counterexample :
  let before := AnalysisContext.store staleResults in
  let after := AnalysisContext.store
                 (AnalysisContext.performAnalysis VNull staleResults).2 in
  AnalysisContext.resume before = VNull
  /\ AnalysisContext.jobDescription before = VNull
  /\ ~ (after = withError before (VStr AnalysisContext.requiredMessage)
        /\ AnalysisContext.analysis after = VNull
        /\ AnalysisContext.error after = VStr AnalysisContext.requiredMessage
        /\ AnalysisContext.currentStep after = VStr "upload"
        /\ AnalysisContext.loading after = VBool false).
Proof.
  cbv zeta. split; [reflexivity|]. split; [reflexivity|].
  intros (_ & Hanalysis & _). vm_compute in Hanalysis. discriminate Hanalysis.
Qed.

(** C3, amended. If performAnalysis is invoked while state.resume or
    state.jobDescription is null (or otherwise falsy), it throws
    Error('Both resume and job description are required'), issues no
    request, and leaves resume, jobDescription, analysis and history as they
    were, with error equal to that message, currentStep 'upload' and loading
    false. *)
Theorem performAnalysis_guard (targetRole : value) (w : AnalysisContext.World) :
  truthy (AnalysisContext.resume (AnalysisContext.store w)) = false
  \/ truthy (AnalysisContext.jobDescription (AnalysisContext.store w)) = false ->
  AnalysisContext.performAnalysis targetRole w
  = (Throw (new_Error (VStr AnalysisContext.requiredMessage)),
     {| AnalysisContext.store := afterGuard (AnalysisContext.store w);
        AnalysisContext.net := AnalysisContext.net w |}).
Proof.
  intros H. unfold AnalysisContext.performAnalysis.
  assert (Hguard :
    negb (truthy (AnalysisContext.resume (AnalysisContext.store w)))
    || negb (truthy (AnalysisContext.jobDescription (AnalysisContext.store w)))
    = true).
  { destruct H as [-> | ->]; [reflexivity | apply orb_true_r]. }
  rewrite Hguard. reflexivity.
Qed.

Lemma performAnalysis_guard_witness :
  truthy (AnalysisContext.resume (AnalysisContext.store freshWorld)) = false
  /\ (AnalysisContext.performAnalysis VUndefined freshWorld).1
     = Throw (new_Error (VStr "Both resume and job description are required"))
  /\ Api.sent (AnalysisContext.net
                 (AnalysisContext.performAnalysis VUndefined freshWorld).2) = []
  /\ AnalysisContext.store
       (AnalysisContext.performAnalysis VUndefined freshWorld).2
     = withError AnalysisContext.initialState
         (VStr "Both resume and job description are required").
Proof.
  assert (H : truthy (AnalysisContext.resume (AnalysisContext.store freshWorld))
              = false) by reflexivity.
  pose proof (performAnalysis_guard VUndefined freshWorld (or_introl H)) as E.
  split; [exact H|].
  rewrite E. repeat split.
Defined.

(** ** DocumentUpload *)

Example trim_examples :
  trim "  senior  engineer " = "senior  engineer"
  /\ trim (String (ascii_of_N 9) (String (ascii_of_N 160) " ")) = ""
  /\ trim "" = "".
Proof. repeat split. Qed.

Example fileExtension_examples :
  DocumentUpload.fileExtension jobFilePdf = ".pdf"
  /\ DocumentUpload.fileExtension
       {| DocumentUpload.name := "resume"; DocumentUpload.size := 10 |}
     = ".resume"
  /\ DocumentUpload.fileExtension
       {| DocumentUpload.name := "cv.final.DocX"; DocumentUpload.size := 10 |}
     = ".docx".
Proof. repeat split. Qed.

(** C8, on the code. The uploader of job descriptions accepts '.pdf', so
    its size cap is the 6MB branch, not the 3MB the comment in handleFile and
    the README give for job descriptions: a 4MB job description is selected
    with no alert.  For every list of accepted types, handleFile selects the
    file exactly when its extension is accepted and its size is at most
    maxSize, and raises one alert otherwise. *)
Theorem handleFile_job_cap {W} (acceptedTypes : list string)
    (file : DocumentUpload.File) (c : DocumentUpload.Component W) :
  DocumentUpload.maxSize AnalysisPage.jobAcceptedTypes = (6 * 1024 * 1024)%Z
  /\ DocumentUpload.maxSize AnalysisPage.resumeAcceptedTypes = (6 * 1024 * 1024)%Z
  /\ DocumentUpload.handleFile AnalysisPage.jobAcceptedTypes jobFileTxt c
     = DocumentUpload.setSelectedFile (Some jobFileTxt) c
  /\ DocumentUpload.handleFile AnalysisPage.jobAcceptedTypes jobFilePdf c
     = DocumentUpload.setSelectedFile (Some jobFilePdf) c
  /\ (3 * 1024 * 1024 < DocumentUpload.size jobFileTxt)%Z
  /\ (if includes acceptedTypes (DocumentUpload.fileExtension file)
         && (DocumentUpload.size file <=? DocumentUpload.maxSize acceptedTypes)%Z
      then DocumentUpload.handleFile acceptedTypes file c
           = DocumentUpload.setSelectedFile (Some file) c
      else exists msg,
           DocumentUpload.handleFile acceptedTypes file c
           = DocumentUpload.alert msg c).
Proof.
  repeat split.
  unfold DocumentUpload.handleFile.
  destruct (includes acceptedTypes (DocumentUpload.fileExtension file));
    cbn [negb andb]; [|eexists; reflexivity].
  rewrite Z.gtb_ltb, Z.ltb_antisym.
  destruct (DocumentUpload.size file <=? DocumentUpload.maxSize acceptedTypes)%Z;
    cbn [negb]; [reflexivity | eexists; reflexivity].
Qed.

Section Trim.

Lemma trimEnd_blank (s : string) : isBlank (trimEnd s) = true -> trimEnd s = "".
Proof.
  induction s as [|c s IH]; [reflexivity|]. cbn [trimEnd].
  destruct (trimEnd s) as [|c' t] eqn:E.
  - destruct (isWhiteSpace c) eqn:Hc; [reflexivity|].
    cbn [isBlank]. rewrite Hc. discriminate.
  - cbn [isBlank] in *. intros H.
    apply andb_true_iff in H as [_ H]. discriminate (IH H).
Qed.

(** A trimmed string that is not empty is not blank. *)
Lemma trim_not_blank (s : string) :
  String.eqb (trim s) "" = false -> isBlank (trim s) = false.
Proof.
  intros H. destruct (isBlank (trim s)) eqn:E; [|reflexivity].
  unfold trim in *. rewrite (trimEnd_blank _ E) in H. discriminate H.
Qed.

Lemma truthy_string (s : string) : truthy (VStr s) = negb (String.eqb s "").
Proof. reflexivity. Qed.

End Trim.

Section Uploads.

(** An upload puts exactly one request on the wire: a POST of the one form
    field. *)
Lemma uploadWith_sent (field set : string) (content : value) (url : string)
    (w : AnalysisContext.World) :
  let upload := fun formData =>
    tryCatch
      (bind (Api.post url (Api.FormData formData) Api.multipart)
            (fun response => ret response))
      (fun error => throw error) in
  exists req,
    isUploadOf field content req
    /\ Api.sent (AnalysisContext.net
                   (AnalysisContext.uploadWith field upload set content w).2)
       = (Api.sent (AnalysisContext.net w) ++ [req])%list.
Proof.
  cbv zeta.
  exists {| Api.method := "post"; Api.url := url;
            Api.body := Api.FormData [(field, content)]; Api.params := ∅;
            Api.headers := Api.multipart ∪ Api.defaultHeaders |}.
  split; [split; reflexivity|].
  unfold AnalysisContext.uploadWith, tryFinally, tryCatch, bind,
    AnalysisContext.dispatch, AnalysisContext.api, zoom, Api.post,
    Api.dispatchRequest, ret, throw.
  cbn [AnalysisContext.net AnalysisContext.store fst snd].
  match goal with
  | |- context [Api.server ?n ?l ?r] => destruct (Api.server n l r) as [resp|err]
  end.
  - reflexivity.
  - unfold Api.responseRejected.
    repeat match goal with
           | |- context [if ?b then _ else _] => destruct b
           end; reflexivity.
Qed.

End Uploads.

Section TextUpload.
Context {W : Type}.
Variable onTextUpload : string -> eff W value.

(** With nothing but whitespace in the text area the handler does nothing. *)
Lemma handleTextUpload_blank (c : DocumentUpload.Component W) :
  String.eqb (trim (DocumentUpload.textInput c)) "" = true ->
  DocumentUpload.handleTextUpload onTextUpload c = (Return tt, c).
Proof.
  intros H. unfold DocumentUpload.handleTextUpload.
  rewrite truthy_string, H. reflexivity.
Qed.

(** Otherwise it runs the callback once, on the trimmed text, and swallows
    its failure. *)
Lemma handleTextUpload_submits (c : DocumentUpload.Component W) :
  String.eqb (trim (DocumentUpload.textInput c)) "" = false ->
  (DocumentUpload.handleTextUpload onTextUpload c).1 = Return tt
  /\ DocumentUpload.parent (DocumentUpload.handleTextUpload onTextUpload c).2
     = (onTextUpload (trim (DocumentUpload.textInput c))
                     (DocumentUpload.parent c)).2.
Proof.
  intros H. unfold DocumentUpload.handleTextUpload.
  rewrite truthy_string, H. cbn [negb].
  unfold tryCatch, bind, zoom.
  destruct (onTextUpload _ (DocumentUpload.parent c)) as [[v|e] w'];
    split; reflexivity.
Qed.

End TextUpload.

(** C7. The paste-text path never submits blank text.  The Submit Text
    button is disabled exactly while the trimmed input is empty, and then the
    handler calls nothing and changes nothing; otherwise onTextUpload is
    called once, with the trimmed input, which is not blank.  With the
    provider's uploadResumeText or uploadJobDescriptionText as the callback,
    the only request that goes out posts that text as the field 'text', an
    upload that is not an empty input. *)
Theorem handleTextUpload_never_blank {W} (onTextUpload : string -> eff W value)
    (c : DocumentUpload.Component W)
    (cl : DocumentUpload.Component (list string))
    (cw : DocumentUpload.Component AnalysisContext.World) :
  DocumentUpload.submitDisabled c
  = String.eqb (trim (DocumentUpload.textInput c)) ""
  /\ (DocumentUpload.handleTextUpload onTextUpload c).1 = Return tt
  /\ (if String.eqb (trim (DocumentUpload.textInput c)) "" then
        DocumentUpload.handleTextUpload onTextUpload c = (Return tt, c)
        /\ DocumentUpload.clickSubmitText onTextUpload c = (Return tt, c)
      else
        isBlank (trim (DocumentUpload.textInput c)) = false
        /\ DocumentUpload.parent (DocumentUpload.handleTextUpload onTextUpload c).2
           = (onTextUpload (trim (DocumentUpload.textInput c))
                           (DocumentUpload.parent c)).2
        /\ DocumentUpload.clickSubmitText onTextUpload c
           = DocumentUpload.handleTextUpload onTextUpload c)
  /\ (exists texts,
        DocumentUpload.parent (DocumentUpload.handleTextUpload recordText cl).2
        = (DocumentUpload.parent cl ++ texts)%list
        /\ Forall (fun text => text = trim (DocumentUpload.textInput cl)
                               /\ isBlank text = false) texts)
  /\ postsOnlyText AnalysisContext.uploadResumeText cw
  /\ postsOnlyText AnalysisContext.uploadJobDescriptionText cw.
Proof.
  assert (Hdis : DocumentUpload.submitDisabled c
                 = String.eqb (trim (DocumentUpload.textInput c)) "").
  { unfold DocumentUpload.submitDisabled. rewrite truthy_string.
    apply negb_involutive. }
  assert (Hposts : forall upload,
            upload = AnalysisContext.uploadResumeText
            \/ upload = AnalysisContext.uploadJobDescriptionText ->
            postsOnlyText upload cw).
  { intros upload Hupload. unfold postsOnlyText.
    destruct (String.eqb (trim (DocumentUpload.textInput cw)) "") eqn:E.
    + exists []. rewrite handleTextUpload_blank by exact E.
      split; [symmetry; apply app_nil_r | constructor].
    + rewrite (proj2 (handleTextUpload_submits upload cw E)).
      assert (Hsent : exists req,
        isUploadOf "text" (VStr (trim (DocumentUpload.textInput cw))) req
        /\ Api.sent (AnalysisContext.net
             (upload (trim (DocumentUpload.textInput cw))
                     (DocumentUpload.parent cw)).2)
           = (Api.sent (AnalysisContext.net (DocumentUpload.parent cw))
              ++ [req])%list).
      { destruct Hupload as [-> | ->].
        - apply (uploadWith_sent "text" "SET_RESUME" _ "/api/v1/upload-resume").
        - apply (uploadWith_sent "text" "SET_JOB_DESCRIPTION" _
                   "/api/v1/upload-job"). }
      destruct Hsent as (req & Hreq & Hs).
      exists [req]. split; [exact Hs|].
      repeat constructor; try apply Hreq.
      cbn. rewrite (trim_not_blank _ E). reflexivity. }
  split; [exact Hdis|]. split; [|split; [|split; [|split]]].
  - destruct (String.eqb (trim (DocumentUpload.textInput c)) "") eqn:E.
    + rewrite handleTextUpload_blank by exact E. reflexivity.
    + apply handleTextUpload_submits, E.
  - unfold DocumentUpload.clickSubmitText. rewrite Hdis.
    destruct (String.eqb (trim (DocumentUpload.textInput c)) "") eqn:E.
    + split; [|reflexivity]. apply handleTextUpload_blank, E.
    + split; [apply trim_not_blank, E|].
      split; [apply handleTextUpload_submits, E | reflexivity].
  - destruct (String.eqb (trim (DocumentUpload.textInput cl)) "") eqn:E.
    + exists []. rewrite handleTextUpload_blank by exact E.
      split; [symmetry; apply app_nil_r | constructor].
    + exists [trim (DocumentUpload.textInput cl)].
      rewrite (proj2 (handleTextUpload_submits recordText cl E)).
      split; [reflexivity|].
      repeat constructor. apply trim_not_blank, E.
  - apply Hposts. left. reflexivity.
  - apply Hposts. right. reflexivity.
Qed.

(** ** Skill classification and the chart *)

Section Sorting.
Context {A : Type} (compare : A -> A -> Z).

Lemma insertBy_Permutation (x : A) (l : list A) :
  insertBy compare x l ≡ₚ x :: l.
Proof.
  induction l as [|y l IH]; [reflexivity|]. cbn [insertBy].
  destruct (compare x y <=? 0)%Z; [reflexivity|].
  rewrite IH. apply Permutation_swap.
Qed.

Lemma sort_Permutation (l : list A) : sort compare l ≡ₚ l.
Proof.
  induction l as [|x l IH]; [reflexivity|].
  unfold sort in *. cbn [foldr]. rewrite insertBy_Permutation, IH. reflexivity.
Qed.

End Sorting.

Section Classification.
Variable ontology : gmap string Engine.SkillOntologyEntry.
Variable detectors : list (string -> list (string * Engine.SkillMention)).
Variable corroborate :
  Engine.SkillMention -> Engine.SkillMention -> Engine.SkillMention.
Variable importance_of : Engine.SkillOntologyEntry -> Engine.SkillMention -> Q.
Variable preferred : Engine.SkillMention -> bool.
Variable match_threshold : Q.

(** The merge step reports ontology skills only. *)
Lemma merge_detection_in_ontology (d : string * Engine.SkillMention)
    (acc : gmap string Engine.SkillMention) :
  dom acc ⊆ dom ontology ->
  dom (Engine.merge_detection ontology corroborate d acc) ⊆ dom ontology.
Proof.
  intros Hacc. unfold Engine.merge_detection.
  destruct (ontology !! d.1) as [entry|] eqn:E; [|exact Hacc].
  assert (Hd : d.1 ∈ dom ontology) by (apply elem_of_dom; eauto).
  destruct (acc !! d.1); rewrite dom_insert_L;
    intros id [->%elem_of_singleton | Hid]%elem_of_union; auto.
Qed.

Lemma extract_in_ontology (text : string) :
  dom (Engine.extract ontology detectors corroborate text) ⊆ dom ontology.
Proof.
  unfold Engine.extract.
  induction (flat_map (fun detect => detect text) detectors) as [|d ds IH].
  - cbn [foldr]. rewrite dom_empty_L. intros id Hid.
    apply elem_of_empty in Hid. contradiction.
  - cbn [foldr]. apply merge_detection_in_ontology, IH.
Qed.

(** No job-side skill of the ontology is lost in classification. *)
Lemma classify_entries_ids (resume_mentions : gmap string Engine.SkillMention)
    (l : list (string * Engine.SkillMention)) :
  Forall (fun d => is_Some (ontology !! d.1)) l ->
  map Engine.canonical_id
      (omap (Engine.classify_entry ontology importance_of preferred
               match_threshold resume_mentions) l)
  = l.*1.
Proof.
  induction 1 as [|d l [entry Hd] _ IH]; [reflexivity|].
  cbn [omap list_omap]. unfold Engine.classify_entry at 1. rewrite Hd.
  cbn. f_equal. exact IH.
Qed.

(** The three lists split the classified skills. *)
Lemma verdict_lists_Permutation (cs : list Engine.Classified) :
  (map SkillGapChart.Matched.name (omap Engine.as_matched cs)
   ++ map SkillGapChart.Gap.name (omap Engine.as_missing cs)
   ++ map SkillGapChart.Gap.name (omap Engine.as_nice_to_have cs))%list
  ≡ₚ map Engine.canonical_id cs.
Proof.
  induction cs as [|c cs IH]; [reflexivity|].
  cbn [omap list_omap].
  unfold Engine.as_matched at 1, Engine.as_missing at 1,
    Engine.as_nice_to_have at 1.
  destruct (Engine.verdict c); cbn [map app SkillGapChart.Matched.name
                                     SkillGapChart.Gap.name].
  - rewrite IH. reflexivity.
  - rewrite <- Permutation_middle, IH. reflexivity.
  - rewrite app_assoc, <- Permutation_middle, <- app_assoc, IH. reflexivity.
Qed.

Lemma chartRows_names (result : SkillGapChart.Analysis) :
  map SkillGapChart.name (SkillGapChart.chartRows result) = classifiedIds result.
Proof.
  unfold SkillGapChart.chartRows, classifiedIds.
  rewrite !map_app, !map_map. reflexivity.
Qed.

Lemma prepareChartData_NoDup (result : SkillGapChart.Analysis) :
  NoDup (classifiedIds result) ->
  NoDup (map SkillGapChart.name (SkillGapChart.prepareChartData result)).
Proof.
  intros H. unfold SkillGapChart.prepareChartData, slice0.
  change (map SkillGapChart.name) with (fmap (M := list) SkillGapChart.name).
  rewrite fmap_take.
  eapply sublist_NoDup; [|apply sublist_take].
  rewrite sort_Permutation.
  change (fmap (M := list) SkillGapChart.name) with (map SkillGapChart.name).
  rewrite chartRows_names. exact H.
Qed.

Lemma skill_lists_ids (resume_mentions job_mentions : gmap string Engine.SkillMention) :
  dom job_mentions ⊆ dom ontology ->
  classifiedIds (Engine.skill_lists ontology importance_of preferred
                   match_threshold resume_mentions job_mentions)
  ≡ₚ (map_to_list job_mentions).*1.
Proof.
  intros Hdom. unfold classifiedIds, Engine.skill_lists.
  cbn [SkillGapChart.matched_skills SkillGapChart.missing_skills
       SkillGapChart.nice_to_have_skills].
  rewrite verdict_lists_Permutation. unfold Engine.classified.
  change (map Engine.canonical_id) with (fmap (M := list) Engine.canonical_id).
  rewrite sort_Permutation.
  change (fmap (M := list) Engine.canonical_id) with (map Engine.canonical_id).
  rewrite classify_entries_ids; [reflexivity|].
  apply Forall_forall. intros [id m] Hin.
  apply elem_of_map_to_list in Hin. apply elem_of_dom, Hdom, elem_of_dom. eauto.
Qed.

End Classification.

Example sampleAnalysis_lists :
  map SkillGapChart.Matched.name (SkillGapChart.matched_skills sampleAnalysis)
  = ["python"]
  /\ map SkillGapChart.Gap.name (SkillGapChart.missing_skills sampleAnalysis)
     = ["sql"]
  /\ SkillGapChart.nice_to_have_skills sampleAnalysis = []
  /\ map (fun d => (SkillGapChart.name d, SkillGapChart.importance d,
                    SkillGapChart.confidence d, SkillGapChart.type d))
         (SkillGapChart.prepareChartData sampleAnalysis)
     = [("python", 100%Z, 95%Z, "matched"); ("sql", 40%Z, 0%Z, "missing")].
Proof. vm_compute. repeat split. Qed.

(** C4. In the result of an analysis the canonical ids of matched_skills,
    missing_skills and nice_to_have_skills are pairwise distinct (each id is
    in exactly one list, once), they are exactly the job-side skills, and
    each of them is in the ontology; so the chart's rows, the concatenation
    of the three lists, and the chart data cut from them name each skill at
    most once. *)
Theorem classification_partition
    (ontology : gmap string Engine.SkillOntologyEntry)
    (detectors : list (string -> list (string * Engine.SkillMention)))
    (corroborate : Engine.SkillMention -> Engine.SkillMention -> Engine.SkillMention)
    (importance_of : Engine.SkillOntologyEntry -> Engine.SkillMention -> Q)
    (preferred : Engine.SkillMention -> bool) (match_threshold : Q)
    (resume_text job_text : string) :
  let job_mentions := Engine.extract ontology detectors corroborate job_text in
  let result := Engine.analyze ontology detectors corroborate importance_of
                  preferred match_threshold resume_text job_text in
  NoDup (classifiedIds result)
  /\ classifiedIds result ≡ₚ (map_to_list job_mentions).*1
  /\ Forall (fun id => is_Some (ontology !! id)) (classifiedIds result)
  /\ map SkillGapChart.name (SkillGapChart.chartRows result)
     = classifiedIds result
  /\ NoDup (map SkillGapChart.name (SkillGapChart.prepareChartData result)).
Proof.
  intros job_mentions result.
  assert (Hids : classifiedIds result ≡ₚ (map_to_list job_mentions).*1).
  { apply skill_lists_ids, extract_in_ontology. }
  assert (Hnodup : NoDup (classifiedIds result)).
  { rewrite Hids. apply NoDup_fst_map_to_list. }
  split; [exact Hnodup|]. split; [exact Hids|]. split; [|split].
  - rewrite Hids. apply Forall_forall. intros id Hin.
    apply list_elem_of_fmap in Hin as ([id' m] & -> & Hin).
    apply elem_of_map_to_list in Hin. cbn [fst].
    apply elem_of_dom, (extract_in_ontology ontology detectors corroborate job_text),
      elem_of_dom. eauto.
  - apply chartRows_names.
  - apply prepareChartData_NoDup, Hnodup.
Qed.

(** * Further properties of the client *)

(** ** services/api.js: the completions *)

(** X2. When its request is fulfilled, a call of the API module other than
    getHistory returns the body of the response, [response.data], as it
    came, and that request is the only one it has issued. *)
Theorem api_success_returns_data (c : ApiCall) (n : Api.Net)
    (r : Api.AxiosResponse) :
  returnsBody c = true ->
  Api.server n (Api.sent n) (requestOf c) = Api.Fulfilled r ->
  (runCall c n).1 = Return (Api.data r)
  /\ (runCall c n).2
     = {| Api.sent := Api.sent n ++ [requestOf c]; Api.server := Api.server n |}.
Proof.
  intros Hc H. split; [|apply runCall_issues].
  rewrite runCall_completion, H, Hc. reflexivity.
Qed.

Lemma api_success_returns_data_witness :
  Api.server (answering documentBody) (Api.sent (answering documentBody))
             (requestOf (UploadResume [("text", VStr "Python developer")]))
  = Api.Fulfilled {| Api.status := 200; Api.data := documentBody |}
  /\ (Api.uploadResume [("text", VStr "Python developer")]
                       (answering documentBody)).1
     = Return documentBody.
Proof.
  split; [reflexivity|].
  exact (proj1 (api_success_returns_data
                  (UploadResume [("text", VStr "Python developer")])
                  (answering documentBody)
                  {| Api.status := 200; Api.data := documentBody |}
                  eq_refl eq_refl)).
Defined.

(** X3. getHistory asks for 20 items from offset 0 unless told otherwise
    (only [undefined] takes the default).  When that request is fulfilled it
    returns the [items] of the body when they are truthy and the empty array
    when they are missing or falsy; on a [null] or [undefined] body it
    throws a TypeError instead, the engine's for reading [items]. *)
Theorem getHistory_result (n : Api.Net) (r : Api.AxiosResponse)
    (limit offset : value) :
  let req :=
    historyRequest
      (match limit with VUndefined => VNum (lit 20) | _ => limit end)
      (match offset with VUndefined => VNum (lit 0) | _ => offset end) in
  Api.server n (Api.sent n) req = Api.Fulfilled r ->
  (if nullish (Api.data r)
   then exists err,
          (Api.getHistory limit offset n).1 = Throw err
          /\ name err = "TypeError"
   else (Api.getHistory limit offset n).1
        = Return (if truthy (get (Api.data r) "items")
                  then get (Api.data r) "items" else VArr []))
  /\ (Api.getHistory limit offset n).2
     = {| Api.sent := Api.sent n ++ [req]; Api.server := Api.server n |}.
Proof.
  intros req H. subst req. split.
  - pose proof (runCall_completion (GetHistory limit offset) n) as E.
    cbn [runCall requestOf returnsBody] in E. rewrite H in E. rewrite E.
    destruct (Api.data r); cbn [nullish member];
      first [reflexivity | eexists; split; reflexivity].
  - apply (runCall_issues (GetHistory limit offset)).
Qed.

Lemma getHistory_result_witness :
  Api.server (answering historyBody) (Api.sent (answering historyBody))
             (historyRequest (VNum (lit 20)) (VNum (lit 0)))
  = Api.Fulfilled {| Api.status := 200; Api.data := historyBody |}
  /\ (Api.getHistory VUndefined VUndefined (answering historyBody)).1
     = Return (VArr [VObj {[ "analysis_id" := VStr "a1" ]};
                     VObj {[ "analysis_id" := VStr "a2" ]}])
  /\ (Api.getHistory VUndefined VUndefined (answering (VObj ∅))).1
     = Return (VArr [])
  /\ (exists err,
        (Api.getHistory VUndefined VUndefined (answering VNull)).1 = Throw err
        /\ name err = "TypeError").
Proof.
  split; [reflexivity|]. split; [|split].
  - exact (proj1 (getHistory_result (answering historyBody)
                    {| Api.status := 200; Api.data := historyBody |}
                    VUndefined VUndefined eq_refl)).
  - exact (proj1 (getHistory_result (answering (VObj ∅))
                    {| Api.status := 200; Api.data := VObj ∅ |}
                    VUndefined VUndefined eq_refl)).
  - exact (proj1 (getHistory_result (answering VNull)
                    {| Api.status := 200; Api.data := VNull |}
                    VUndefined VUndefined eq_refl)).
Defined.

(** X4. The value the response interceptor hands to [new Error] is never
    falsy, whatever the rejected request carries.  So when that value is a
    string, as for every message the interceptor writes itself, the thrown
    Error has it as message and the message is not empty.  A detail that is
    not a string is made one first, and the message can then be empty: the
    empty list gives the empty message. *)
Theorem thrown_message_truthy (e : Api.AxiosError) :
  Api.responseRejected e = Throw (thrownFor e)
  /\ truthy (failureMessage e) = true
  /\ (forall text,
        failureMessage e = VStr text ->
        thrownFor e = {| name := "Error"; message := text |} /\ text <> "")
  /\ (failureMessage e = VArr [] -> message (thrownFor e) = "").
Proof.
  split; [apply responseRejected_message|].
  pose proof (failureMessage_truthy e) as Ht.
  split; [exact Ht|]. unfold thrownFor. split.
  - intros text E. rewrite E in *. split; [reflexivity|].
    intros ->. discriminate Ht.
  - intros ->. reflexivity.
Qed.

Lemma thrown_message_truthy_witness :
  failureMessage connectionRefused
  = VStr "No response from server. Please check your connection."
  /\ thrownFor connectionRefused
     = {| name := "Error";
          message := "No response from server. Please check your connection." |}.
Proof.
  split; [reflexivity|].
  exact (proj1 (proj1 (proj2 (proj2 (thrown_message_truthy connectionRefused)))
                  _ eq_refl)).
Defined.

(** ** contexts/AnalysisContext: the operations of the provider *)

Section Provider.

Lemma withHistory_same (state : AnalysisContext.State) :
  withHistory state (AnalysisContext.history state) = state.
Proof. destruct state; reflexivity. Qed.

(** loadHistory, run: one request; the store changes on a usable body only. *)
Lemma loadHistory_run (w : AnalysisContext.World) :
  let req := historyRequest (VNum (lit 20)) (VNum (lit 0)) in
  AnalysisContext.loadHistory w
  = (Return tt,
     {| AnalysisContext.store :=
          match Api.server (AnalysisContext.net w)
                           (Api.sent (AnalysisContext.net w)) req with
          | Api.Fulfilled r =>
              if nullish (Api.data r) then AnalysisContext.store w
              else withHistory (AnalysisContext.store w)
                     (or (get (Api.data r) "items") (VArr []))
          | Api.Rejected _ => AnalysisContext.store w
          end;
        AnalysisContext.net :=
          {| Api.sent := Api.sent (AnalysisContext.net w) ++ [req];
             Api.server := Api.server (AnalysisContext.net w) |} |}).
Proof.
  cbv zeta.
  unfold AnalysisContext.loadHistory, AnalysisContext.api, zoom,
    Api.getHistory, Api.get_, Api.dispatchRequest, tryCatch, bind,
    AnalysisContext.dispatch, ret, throw, historyRequest.
  cbn [default_param AnalysisContext.net AnalysisContext.store fst snd].
  destruct (Api.server _ _ _) as [r|e].
  - cbn [Api.responseFulfilled]. destruct (Api.data r); reflexivity.
  - rewrite responseRejected_message. reflexivity.
Qed.

(** An upload, run: the dispatches around the one request. *)
Lemma uploadWith_run (field set : string) (content : value) (url : string)
    (w : AnalysisContext.World) :
  let upload := fun formData =>
    tryCatch
      (bind (Api.post url (Api.FormData formData) Api.multipart)
            (fun response => ret response))
      (fun error => throw error) in
  let req := {| Api.method := "post"; Api.url := url;
                Api.body := Api.FormData [(field, content)]; Api.params := ∅;
                Api.headers := Api.multipart ∪ Api.defaultHeaders |} in
  let net' := {| Api.sent := Api.sent (AnalysisContext.net w) ++ [req];
                 Api.server := Api.server (AnalysisContext.net w) |} in
  let started :=
    AnalysisContext.analysisReducer
      (AnalysisContext.analysisReducer (AnalysisContext.store w)
         {| AnalysisContext.type := "SET_LOADING";
            AnalysisContext.payload := VBool true |})
      (AnalysisContext.action "CLEAR_ERROR") in
  let finish := fun (a : AnalysisContext.Action) =>
    AnalysisContext.analysisReducer
      (AnalysisContext.analysisReducer started a)
      {| AnalysisContext.type := "SET_LOADING";
         AnalysisContext.payload := VBool false |} in
  AnalysisContext.uploadWith field upload set content w
  = match Api.server (AnalysisContext.net w)
                     (Api.sent (AnalysisContext.net w)) req with
    | Api.Fulfilled r =>
        (Return (Api.data r),
         {| AnalysisContext.store :=
              finish {| AnalysisContext.type := set;
                        AnalysisContext.payload := Api.data r |};
            AnalysisContext.net := net' |})
    | Api.Rejected e =>
        (Throw (new_Error (failureMessage e)),
         {| AnalysisContext.store :=
              finish {| AnalysisContext.type := "SET_ERROR";
                        AnalysisContext.payload :=
                          VStr (message (new_Error (failureMessage e))) |};
            AnalysisContext.net := net' |})
    end.
Proof.
  cbv zeta.
  unfold AnalysisContext.uploadWith, tryFinally, tryCatch, bind,
    AnalysisContext.dispatch, AnalysisContext.api, zoom, Api.post,
    Api.dispatchRequest, ret, throw.
  cbn [AnalysisContext.net AnalysisContext.store fst snd].
  destruct (Api.server _ _ _) as [r|e].
  - reflexivity.
  - rewrite responseRejected_message. reflexivity.
Qed.

(** Each upload of the provider, run: its request, and the store after. *)
Lemma runUpload_run (u : Upload) (w : AnalysisContext.World) :
  let s := AnalysisContext.store w in
  let net' := {| Api.sent := Api.sent (AnalysisContext.net w) ++ [uploadRequest u];
                 Api.server := Api.server (AnalysisContext.net w) |} in
  runUpload u w
  = match Api.server (AnalysisContext.net w)
                     (Api.sent (AnalysisContext.net w)) (uploadRequest u) with
    | Api.Fulfilled r =>
        (Return (Api.data r),
         {| AnalysisContext.store :=
              if forResume u
              then afterUpload s (Api.data r) (AnalysisContext.jobDescription s)
                     VNull
              else afterUpload s (AnalysisContext.resume s) (Api.data r) VNull;
            AnalysisContext.net := net' |})
    | Api.Rejected e =>
        (Throw (thrownFor e),
         {| AnalysisContext.store :=
              afterUpload s (AnalysisContext.resume s)
                (AnalysisContext.jobDescription s)
                (VStr (message (thrownFor e)));
            AnalysisContext.net := net' |})
    end.
Proof.
  cbv zeta. unfold thrownFor.
  destruct u; cbn [runUpload uploadRequest forResume];
    unfold AnalysisContext.uploadResumeFile, AnalysisContext.uploadResumeText,
      AnalysisContext.uploadJobDescriptionFile,
      AnalysisContext.uploadJobDescriptionText;
    first [ rewrite (uploadWith_run _ "SET_RESUME" _ "/api/v1/upload-resume")
          | rewrite (uploadWith_run _ "SET_JOB_DESCRIPTION" _ "/api/v1/upload-job") ];
    cbv zeta; unfold formRequest; destruct (Api.server _ _ _); reflexivity.
Qed.

End Provider.

(** X5. When its request is fulfilled, an upload returns the body of the
    response and stores it, as [resume] or as [jobDescription]; the error is
    cleared, loading is over, no other field of the state changes, and the
    form post is the only request issued. *)
Theorem upload_success (u : Upload) (w : AnalysisContext.World)
    (r : Api.AxiosResponse) :
  let s := AnalysisContext.store w in
  Api.server (AnalysisContext.net w) (Api.sent (AnalysisContext.net w))
             (uploadRequest u)
  = Api.Fulfilled r ->
  (runUpload u w).1 = Return (Api.data r)
  /\ AnalysisContext.store (runUpload u w).2
     = (if forResume u
        then afterUpload s (Api.data r) (AnalysisContext.jobDescription s) VNull
        else afterUpload s (AnalysisContext.resume s) (Api.data r) VNull)
  /\ Api.sent (AnalysisContext.net (runUpload u w).2)
     = (Api.sent (AnalysisContext.net w) ++ [uploadRequest u])%list.
Proof.
  intros s H. subst s.
  pose proof (runUpload_run u w) as E. cbv zeta in E. rewrite E, H.
  repeat split.
Qed.

Lemma upload_success_witness :
  Api.server (answering documentBody) (Api.sent (answering documentBody))
             (uploadRequest (ResumeText "Python developer"))
  = Api.Fulfilled {| Api.status := 200; Api.data := documentBody |}
  /\ AnalysisContext.resume
       (AnalysisContext.store
          (AnalysisContext.uploadResumeText "Python developer"
             {| AnalysisContext.store := AnalysisContext.initialState;
                AnalysisContext.net := answering documentBody |}).2)
     = documentBody.
Proof.
  split; [reflexivity|].
  pose proof (upload_success (ResumeText "Python developer")
                {| AnalysisContext.store := AnalysisContext.initialState;
                   AnalysisContext.net := answering documentBody |}
                {| Api.status := 200; Api.data := documentBody |} eq_refl)
    as (_ & U & _).
  cbn [runUpload] in U. rewrite U. reflexivity.
Defined.

(** X6. When its request is rejected, an upload throws the interceptor's
    error and stores the message of that error, a string, as [error] (the
    value of the interceptor's priority itself when that is a string);
    loading is over, [resume], [jobDescription] and every other field keep
    their values, and the form post is the only request issued. *)
Theorem upload_failure (u : Upload) (w : AnalysisContext.World)
    (e : Api.AxiosError) :
  let s := AnalysisContext.store w in
  Api.server (AnalysisContext.net w) (Api.sent (AnalysisContext.net w))
             (uploadRequest u)
  = Api.Rejected e ->
  (runUpload u w).1 = Throw (thrownFor e)
  /\ AnalysisContext.store (runUpload u w).2
     = afterUpload s (AnalysisContext.resume s)
         (AnalysisContext.jobDescription s) (VStr (message (thrownFor e)))
  /\ (forall text,
        failureMessage e = VStr text ->
        AnalysisContext.error (AnalysisContext.store (runUpload u w).2)
        = VStr text)
  /\ Api.sent (AnalysisContext.net (runUpload u w).2)
     = (Api.sent (AnalysisContext.net w) ++ [uploadRequest u])%list.
Proof.
  intros s H. subst s.
  pose proof (runUpload_run u w) as E. cbv zeta in E. rewrite E, H.
  split; [reflexivity|]. split; [reflexivity|]. split; [|reflexivity].
  intros text Ht. cbn [snd AnalysisContext.store]. unfold thrownFor.
  rewrite Ht. reflexivity.
Qed.

Lemma upload_failure_witness :
  Api.server (AnalysisContext.net freshWorld)
             (Api.sent (AnalysisContext.net freshWorld))
             (uploadRequest (JobDescriptionText "Python and SQL"))
  = Api.Rejected connectionRefused
  /\ AnalysisContext.error
       (AnalysisContext.store
          (AnalysisContext.uploadJobDescriptionText "Python and SQL" freshWorld).2)
     = VStr "No response from server. Please check your connection."
  /\ AnalysisContext.jobDescription
       (AnalysisContext.store
          (AnalysisContext.uploadJobDescriptionText "Python and SQL" freshWorld).2)
     = VNull.
Proof.
  split; [reflexivity|].
  pose proof (upload_failure (JobDescriptionText "Python and SQL") freshWorld
                connectionRefused eq_refl) as (_ & U & _).
  cbn [runUpload] in U. rewrite U. split; reflexivity.
Defined.

(** X10. loadHistory never throws.  It sends one request for the first 20
    items; a usable body replaces [history] by its items (by the empty array
    when it has none) and touches nothing else, and a failed request or a
    [null] body leaves the whole store as it was. *)
Theorem loadHistory_swallows_failure (w : AnalysisContext.World) :
  (AnalysisContext.loadHistory w).1 = Return tt
  /\ Api.sent (AnalysisContext.net (AnalysisContext.loadHistory w).2)
     = (Api.sent (AnalysisContext.net w)
        ++ [historyRequest (VNum (lit 20)) (VNum (lit 0))])%list
  /\ AnalysisContext.store (AnalysisContext.loadHistory w).2
     = match Api.server (AnalysisContext.net w)
                        (Api.sent (AnalysisContext.net w))
                        (historyRequest (VNum (lit 20)) (VNum (lit 0))) with
       | Api.Fulfilled r =>
           if nullish (Api.data r) then AnalysisContext.store w
           else withHistory (AnalysisContext.store w)
                  (if truthy (get (Api.data r) "items")
                   then get (Api.data r) "items" else VArr [])
       | Api.Rejected _ => AnalysisContext.store w
       end.
Proof.
  pose proof (loadHistory_run w) as H. cbv zeta in H. rewrite H.
  repeat split.
Qed.

Section Analysis.

(** performAnalysis, run: the guard, then the dispatches around the analyze
    request and the reload of the history. *)
Lemma performAnalysis_run (targetRole : value) (w : AnalysisContext.World) :
  let s := AnalysisContext.store w in
  let req := analyzeRequestOf s (default_param targetRole VNull) in
  let net1 := {| Api.sent := Api.sent (AnalysisContext.net w) ++ [req];
                 Api.server := Api.server (AnalysisContext.net w) |} in
  let dispatched := fun (st : AnalysisContext.State) (t : string) (p : value) =>
    AnalysisContext.analysisReducer st
      {| AnalysisContext.type := t; AnalysisContext.payload := p |} in
  let started :=
    dispatched
      (dispatched (dispatched s "SET_LOADING" (VBool true))
                  "SET_CURRENT_STEP" (VStr "analyzing"))
      "CLEAR_ERROR" VUndefined in
  AnalysisContext.performAnalysis targetRole w
  = if negb (truthy (AnalysisContext.resume s))
       || negb (truthy (AnalysisContext.jobDescription s))
    then (Throw (new_Error (VStr AnalysisContext.requiredMessage)),
          {| AnalysisContext.store := afterGuard s;
             AnalysisContext.net := AnalysisContext.net w |})
    else
      match Api.server (AnalysisContext.net w)
                       (Api.sent (AnalysisContext.net w)) req with
      | Api.Fulfilled r =>
          let reloaded :=
            (AnalysisContext.loadHistory
               {| AnalysisContext.store :=
                    dispatched started "SET_ANALYSIS" (Api.data r);
                  AnalysisContext.net := net1 |}).2 in
          (Return (Api.data r),
           {| AnalysisContext.store :=
                dispatched (AnalysisContext.store reloaded)
                           "SET_LOADING" (VBool false);
              AnalysisContext.net := AnalysisContext.net reloaded |})
      | Api.Rejected e =>
          (Throw (new_Error (failureMessage e)),
           {| AnalysisContext.store :=
                afterFailedAnalysis s
                  (VStr (message (new_Error (failureMessage e))));
              AnalysisContext.net := net1 |})
      end.
Proof.
  cbv zeta. unfold AnalysisContext.performAnalysis.
  destruct (negb _ || negb _); [reflexivity|].
  unfold AnalysisContext.dispatch, AnalysisContext.api, Api.analyzeResume,
    Api.post, Api.dispatchRequest, analyzeRequestOf, analyzeRequest.
  unfold tryFinally, tryCatch, bind, zoom, ret, throw.
  cbn [AnalysisContext.net AnalysisContext.store fst snd].
  assert (Hd : forall v, default_param (default_param v VNull) VNull
                         = default_param v VNull) by (intros []; reflexivity).
  rewrite Hd.
  destruct (Api.server _ _ _) as [r|e].
  - cbn [Api.responseFulfilled]. rewrite !loadHistory_run. reflexivity.
  - rewrite responseRejected_message. reflexivity.
Qed.

Lemma guard_passes (s : AnalysisContext.State) :
  truthy (AnalysisContext.resume s) = true ->
  truthy (AnalysisContext.jobDescription s) = true ->
  negb (truthy (AnalysisContext.resume s))
  || negb (truthy (AnalysisContext.jobDescription s)) = false.
Proof. intros -> ->. reflexivity. Qed.

End Analysis.

(** X7. With both documents in the store and the analyze request fulfilled,
    performAnalysis returns the body of the response and stores it as
    [analysis]; the step becomes 'results', the error is cleared, loading is
    over and the documents stay.  Two requests go out, the analysis and then
    the reload of the history, whose outcome decides [history] alone. *)
Theorem performAnalysis_success (targetRole : value) (w : AnalysisContext.World)
    (r : Api.AxiosResponse) :
  let request :=
    analyzeRequestOf (AnalysisContext.store w)
      (match targetRole with VUndefined => VNull | _ => targetRole end) in
  truthy (AnalysisContext.resume (AnalysisContext.store w)) = true ->
  truthy (AnalysisContext.jobDescription (AnalysisContext.store w)) = true ->
  Api.server (AnalysisContext.net w) (Api.sent (AnalysisContext.net w)) request
  = Api.Fulfilled r ->
  (AnalysisContext.performAnalysis targetRole w).1 = Return (Api.data r)
  /\ (exists h,
        AnalysisContext.store (AnalysisContext.performAnalysis targetRole w).2
        = afterAnalysis (AnalysisContext.store w) (Api.data r) h)
  /\ Api.sent (AnalysisContext.net
                 (AnalysisContext.performAnalysis targetRole w).2)
     = (Api.sent (AnalysisContext.net w)
        ++ [request; historyRequest (VNum (lit 20)) (VNum (lit 0))])%list.
Proof.
  intros request Hr Hj H. subst request.
  pose proof (performAnalysis_run targetRole w) as E. cbv zeta in E.
  assert (Hd : default_param targetRole VNull
               = match targetRole with VUndefined => VNull | _ => targetRole end)
    by (destruct targetRole; reflexivity).
  rewrite Hd in E.
  rewrite E, (guard_passes _ Hr Hj), H. clear E.
  rewrite loadHistory_run. cbv zeta.
  cbn [fst snd AnalysisContext.store AnalysisContext.net Api.sent].
  split; [reflexivity|]. split.
  - clear H.
    destruct (Api.server _ _ _) as [r'|e'];
      [destruct (nullish (Api.data r'))|]; eexists; reflexivity.
  - rewrite <- app_assoc. reflexivity.
Qed.

Lemma performAnalysis_success_witness :
  truthy (AnalysisContext.resume
            (AnalysisContext.store (readyWorld (answering historyBody)))) = true
  /\ (AnalysisContext.performAnalysis (VStr "Data Engineer")
        (readyWorld (answering historyBody))).1
     = Return historyBody
  /\ AnalysisContext.currentStep
       (AnalysisContext.store
          (AnalysisContext.performAnalysis (VStr "Data Engineer")
             (readyWorld (answering historyBody))).2)
     = VStr "results".
Proof.
  pose proof (performAnalysis_success (VStr "Data Engineer")
                (readyWorld (answering historyBody))
                {| Api.status := 200; Api.data := historyBody |}
                eq_refl eq_refl eq_refl) as (R & (h & S) & _).
  split; [reflexivity|]. split; [exact R|].
  rewrite S. reflexivity.
Defined.

(** X8. With both documents in the store and the analyze request rejected,
    performAnalysis throws the interceptor's error and stores the message of
    that error, a string, as [error]; the step goes back to 'upload',
    loading is over, the documents, a previous analysis and the history
    stay, and the history is not reloaded: the analyze request is the only
    one sent. *)
Theorem performAnalysis_api_failure (targetRole : value)
    (w : AnalysisContext.World) (e : Api.AxiosError) :
  let request :=
    analyzeRequestOf (AnalysisContext.store w)
      (match targetRole with VUndefined => VNull | _ => targetRole end) in
  truthy (AnalysisContext.resume (AnalysisContext.store w)) = true ->
  truthy (AnalysisContext.jobDescription (AnalysisContext.store w)) = true ->
  Api.server (AnalysisContext.net w) (Api.sent (AnalysisContext.net w)) request
  = Api.Rejected e ->
  (AnalysisContext.performAnalysis targetRole w).1 = Throw (thrownFor e)
  /\ AnalysisContext.store (AnalysisContext.performAnalysis targetRole w).2
     = afterFailedAnalysis (AnalysisContext.store w)
         (VStr (message (thrownFor e)))
  /\ (forall text,
        failureMessage e = VStr text ->
        AnalysisContext.error
          (AnalysisContext.store (AnalysisContext.performAnalysis targetRole w).2)
        = VStr text)
  /\ Api.sent (AnalysisContext.net
                 (AnalysisContext.performAnalysis targetRole w).2)
     = (Api.sent (AnalysisContext.net w) ++ [request])%list.
Proof.
  intros request Hr Hj H. subst request.
  pose proof (performAnalysis_run targetRole w) as E. cbv zeta in E.
  assert (Hd : default_param targetRole VNull
               = match targetRole with VUndefined => VNull | _ => targetRole end)
    by (destruct targetRole; reflexivity).
  rewrite Hd in E.
  rewrite E, (guard_passes _ Hr Hj), H. unfold thrownFor.
  split; [reflexivity|]. split; [reflexivity|]. split; [|reflexivity].
  intros text Ht. cbn [snd AnalysisContext.store]. rewrite Ht. reflexivity.
Qed.

Lemma performAnalysis_api_failure_witness :
  truthy (AnalysisContext.resume (AnalysisContext.store (readyWorld offline)))
  = true
  /\ Api.server (AnalysisContext.net (readyWorld offline))
                (Api.sent (AnalysisContext.net (readyWorld offline)))
                (analyzeRequestOf (AnalysisContext.store (readyWorld offline)) VNull)
     = Api.Rejected connectionRefused
  /\ AnalysisContext.store
       (AnalysisContext.performAnalysis VNull (readyWorld offline)).2
     = afterFailedAnalysis (AnalysisContext.store (readyWorld offline))
         (VStr "No response from server. Please check your connection.").
Proof.
  split; [reflexivity|]. split; [reflexivity|].
  exact (proj1 (proj2 (performAnalysis_api_failure VNull (readyWorld offline)
                         connectionRefused eq_refl eq_refl eq_refl))).
Defined.

(** X9. No operation of the provider leaves the loading flag up: after
    performAnalysis and after each of the four uploads, whatever the state
    before and whatever the transport answers, [loading] is false. *)
Theorem loading_released (w : AnalysisContext.World) (targetRole file : value)
    (text : string) :
  let loadingAfter := fun (c : eff AnalysisContext.World value) =>
    AnalysisContext.loading (AnalysisContext.store (c w).2) in
  loadingAfter (AnalysisContext.performAnalysis targetRole) = VBool false
  /\ loadingAfter (AnalysisContext.uploadResumeFile file) = VBool false
  /\ loadingAfter (AnalysisContext.uploadResumeText text) = VBool false
  /\ loadingAfter (AnalysisContext.uploadJobDescriptionFile file) = VBool false
  /\ loadingAfter (AnalysisContext.uploadJobDescriptionText text) = VBool false.
Proof.
  cbv zeta beta. split.
  - pose proof (performAnalysis_run targetRole w) as E. cbv zeta in E.
    rewrite E. destruct (negb _ || negb _); [reflexivity|].
    destruct (Api.server _ _ _); reflexivity.
  - unfold AnalysisContext.uploadResumeFile, AnalysisContext.uploadResumeText,
      AnalysisContext.uploadJobDescriptionFile,
      AnalysisContext.uploadJobDescriptionText.
    repeat split;
      first [ rewrite (uploadWith_run _ "SET_RESUME" _ "/api/v1/upload-resume")
            | rewrite (uploadWith_run _ "SET_JOB_DESCRIPTION" _
                         "/api/v1/upload-job") ];
      cbv zeta; destruct (Api.server _ _ _); reflexivity.
Qed.

(** ** pages/AnalysisPage: the Analyze button *)

Lemma analyzeDisabled_spec (s : AnalysisContext.State) :
  AnalysisPage.analyzeDisabled s
  = negb (truthy (AnalysisContext.resume s))
    || negb (truthy (AnalysisContext.jobDescription s))
    || truthy (AnalysisContext.loading s).
Proof.
  unfold AnalysisPage.analyzeDisabled, AnalysisPage.canAnalyze, and_, not_, or.
  destruct (truthy (AnalysisContext.resume s)) eqn:Hr;
    destruct (truthy (AnalysisContext.jobDescription s)) eqn:Hj;
    destruct (truthy (AnalysisContext.loading s)) eqn:Hl;
    cbn [truthy negb orb]; rewrite ?Hr, ?Hj, ?Hl; cbn [truthy negb orb];
    rewrite ?Hr, ?Hj, ?Hl; reflexivity.
Qed.

(** X11. The Analyze button is disabled exactly when a document is missing
    or something is loading.  A click never throws; on the disabled button it
    does nothing, and on the enabled button the guard of performAnalysis
    cannot fire: the analyze request goes out first, with the ids of the two
    documents and the role input ([null] for an empty input). *)
Theorem clickAnalyze_sends (targetRole : string) (w : AnalysisContext.World) :
  let s := AnalysisContext.store w in
  AnalysisPage.analyzeDisabled s
  = negb (truthy (AnalysisContext.resume s))
    || negb (truthy (AnalysisContext.jobDescription s))
    || truthy (AnalysisContext.loading s)
  /\ (AnalysisPage.clickAnalyze targetRole w).1 = Return tt
  /\ (if AnalysisPage.analyzeDisabled s
      then AnalysisPage.clickAnalyze targetRole w = (Return tt, w)
      else exists rest,
        Api.sent (AnalysisContext.net (AnalysisPage.clickAnalyze targetRole w).2)
        = (Api.sent (AnalysisContext.net w)
           ++ analyzeRequestOf s
                (if String.eqb targetRole "" then VNull else VStr targetRole)
              :: rest)%list).
Proof.
  cbv zeta. split; [apply analyzeDisabled_spec|].
  unfold AnalysisPage.clickAnalyze.
  destruct (AnalysisPage.analyzeDisabled (AnalysisContext.store w)) eqn:Hdis.
  { split; reflexivity. }
  rewrite analyzeDisabled_spec in Hdis.
  apply orb_false_elim in Hdis as [Hdis _].
  unfold AnalysisPage.handleAnalyze, tryCatch, bind.
  pose proof (performAnalysis_run (or (VStr targetRole) VNull) w) as E.
  cbv zeta in E. rewrite E, Hdis. clear E.
  assert (Hrole : default_param (or (VStr targetRole) VNull) VNull
                  = if String.eqb targetRole "" then VNull else VStr targetRole).
  { unfold or. cbn [truthy]. destruct (String.eqb targetRole ""); reflexivity. }
  rewrite Hrole.
  destruct (Api.server _ _ _) as [r|e].
  - rewrite loadHistory_run. cbv zeta.
    cbn [fst snd AnalysisContext.store AnalysisContext.net Api.sent ret].
    split; [reflexivity|]. eexists. rewrite <- app_assoc. reflexivity.
  - cbn [fst snd AnalysisContext.store AnalysisContext.net Api.sent ret].
    split; [reflexivity|]. exists []. reflexivity.
Qed.

(** ** pages/HistoryPage: pagination and deletion *)

Section Pagination.

Lemma totalPages_bounds (history : list HistoryPage.HistoryItem) :
  let n := HistoryPage.totalPages history in
  let len := Z.of_nat (length history) in
  (0 <= n /\ 10 * (n - 1) < len <= 10 * n)%Z.
Proof.
  cbv zeta. unfold HistoryPage.totalPages, Math_ceil, HistoryPage.itemsPerPage.
  set (len := Z.of_nat (length history)).
  assert (Hlen : (0 <= len)%Z) by (subst len; lia).
  assert (E : Qceiling (inject_Z len / inject_Z 10) = (- ((- len) / 10))%Z).
  { unfold Qceiling, Qfloor, Qdiv, Qinv, Qmult, Qopp, inject_Z. cbn.
    rewrite Z.mul_1_r. reflexivity. }
  rewrite E. clearbody len.
  pose proof (Z.div_mod (- len) 10 ltac:(lia)) as Hdm.
  pose proof (Z.mod_pos_bound (- len) 10 ltac:(lia)) as Hb.
  lia.
Qed.

Lemma slice_length_le {A} (start stop : Z) (l : list A) :
  (stop = start + 10)%Z -> length (slice start stop l) <= 10.
Proof.
  intros H. unfold slice. rewrite length_take.
  destruct (Z.ltb_spec start 0), (Z.ltb_spec stop 0); lia.
Qed.

(** A page from 1 on is a window of ten items. *)
Lemma currentHistory_window (history : list HistoryPage.HistoryItem) (i : nat) :
  HistoryPage.currentHistory history (Z.of_nat i + 1)
  = take 10 (drop (i * 10) history).
Proof.
  unfold HistoryPage.currentHistory, HistoryPage.endIndex.
  unfold HistoryPage.startIndex, HistoryPage.itemsPerPage, slice.
  replace (Z.of_nat i + 1 - 1)%Z with (Z.of_nat i) by lia.
  assert (H1 : (Z.of_nat i * 10 <? 0)%Z = false) by (apply Z.ltb_ge; lia).
  assert (H2 : (Z.of_nat i * 10 + 10 <? 0)%Z = false) by (apply Z.ltb_ge; lia).
  rewrite H1, H2.
  destruct (decide (i * 10 < length history)) as [Hlt|Hge].
  - replace (Z.to_nat (Z.min (Z.of_nat i * 10) (Z.of_nat (length history))))
      with (i * 10) by lia.
    destruct (decide (i * 10 + 10 <= length history)).
    + f_equal. lia.
    + rewrite !take_ge; [reflexivity | rewrite length_drop; lia
                                      | rewrite length_drop; lia].
  - rewrite (drop_ge history (i * 10)) by lia.
    rewrite drop_ge by lia. rewrite !take_nil. reflexivity.
Qed.

Lemma windows_concat {A} (l : list A) (n : nat) :
  concat (map (fun i => take 10 (drop (i * 10) l)) (seq 0 n)) = take (n * 10) l.
Proof.
  induction n as [|n IH]; [reflexivity|].
  rewrite seq_S, map_app, concat_app, IH. cbn [map concat plus].
  rewrite app_nil_r, take_take_drop. f_equal. lia.
Qed.

End Pagination.

(** X12. The numbered pages 1 to totalPages cut the history into consecutive
    windows: shown one after the other they give back the whole history,
    each of them holds at least one and at most ten items, and no page
    number at all shows more than ten. *)
Theorem pagination_partition (history : list HistoryPage.HistoryItem) (p : Z) :
  concat (map (HistoryPage.currentHistory history) (HistoryPage.pageButtons history))
  = history
  /\ Forall (fun page =>
               1 <= length (HistoryPage.currentHistory history page) <= 10)
            (HistoryPage.pageButtons history)
  /\ length (HistoryPage.currentHistory history p) <= 10
  /\ length (HistoryPage.pageButtons history) = (length history + 9) / 10.
Proof.
  pose proof (totalPages_bounds history) as Hn. cbv zeta in Hn.
  unfold HistoryPage.pageButtons.
  set (n := Z.to_nat (HistoryPage.totalPages history)).
  assert (Hlo : (n - 1) * 10 < length history \/ (n = 0 /\ length history = 0))
    by lia.
  assert (Hhi : length history <= n * 10) by lia.
  split; [|split; [|split]].
  - rewrite map_map.
    rewrite (map_ext _ (fun i => take 10 (drop (i * 10) history)))
      by (intros i; apply currentHistory_window).
    rewrite windows_concat. apply take_ge. exact Hhi.
  - apply Forall_forall. intros page Hin.
    apply list_elem_of_In, in_map_iff in Hin as (i & <- & Hi).
    apply in_seq in Hi. rewrite currentHistory_window, length_take, length_drop.
    lia.
  - apply slice_length_le. reflexivity.
  - rewrite length_map, length_seq.
    apply (Nat.div_unique _ _ _ (length history + 9 - n * 10)); lia.
Qed.

(** X13. goToPage clamps: a page below 1 becomes 1, a page past the last
    becomes the last, any other stays.  The pagination bar is rendered with
    more than one page only: when it is, the result is one of its numbered
    buttons; when it is not, no button is numbered and the result is page 1.
    With a history that is not empty the page it lands on shows at least one
    item. *)
Theorem goToPage_lands (history : list HistoryPage.HistoryItem) (page : Z) :
  let p := HistoryPage.goToPage history page in
  let n := HistoryPage.totalPages history in
  p = (if (page <? 1)%Z then 1%Z
       else if (n <? page)%Z then Z.max 1 n else page)
  /\ (if HistoryPage.paginationShown history
      then In p (HistoryPage.renderedPageButtons history)
      else HistoryPage.renderedPageButtons history = [] /\ p = 1%Z)
  /\ match history with
     | [] => p = 1%Z
     | _ :: _ => (1 <= p <= n)%Z
                 /\ 1 <= length (HistoryPage.currentHistory history p)
     end.
Proof.
  cbv zeta. pose proof (totalPages_bounds history) as Hn. cbv zeta in Hn.
  unfold HistoryPage.goToPage, HistoryPage.renderedPageButtons,
    HistoryPage.paginationShown.
  set (p := Z.max 1 (Z.min page (HistoryPage.totalPages history))).
  split; [|split].
  - subst p.
    destruct (Z.ltb_spec page 1), (Z.ltb_spec (HistoryPage.totalPages history) page);
      lia.
  - destruct (Z.ltb_spec 1 (HistoryPage.totalPages history)) as [Hmany|Hfew].
    + assert (Hp : (1 <= p <= HistoryPage.totalPages history)%Z) by lia.
      replace p with (Z.of_nat (Z.to_nat (p - 1)) + 1)%Z by lia.
      unfold HistoryPage.pageButtons. apply in_map_iff.
      exists (Z.to_nat (p - 1)). split; [reflexivity|]. apply in_seq. lia.
    + split; [reflexivity|lia].
  - subst p. destruct history as [|item history'] eqn:Eh.
    + cbn [length] in Hn. lia.
    + rewrite <- Eh in *. assert (Hlen : 1 <= length history) by (subst; cbn; lia).
      clear Eh.
      set (p := Z.max 1 (Z.min page (HistoryPage.totalPages history))).
      assert (Hp : (1 <= p <= HistoryPage.totalPages history)%Z) by lia.
      split; [exact Hp|].
      replace p with (Z.of_nat (Z.to_nat (p - 1)) + 1)%Z by lia.
      rewrite currentHistory_window, length_take, length_drop. lia.
Qed.

(** X14. A delete the user does not confirm does nothing.  A confirmed one
    never throws and always ends with no row marked as being deleted; the
    page reloads exactly when the context's deleteAnalysis completed, and
    raises the failure alert exactly when it threw or is not a function. *)
Theorem handleDelete_outcome {W} (deleteAnalysis : option (string -> eff W value))
    (confirmed : bool) (analysisId : string) (p : HistoryPage.Page W) :
  let after := (HistoryPage.handleDelete deleteAnalysis confirmed analysisId p).2 in
  (HistoryPage.handleDelete deleteAnalysis confirmed analysisId p).1 = Return tt
  /\ (if confirmed then
        HistoryPage.deletingId after = None
        /\ HistoryPage.currentPage after = HistoryPage.currentPage p
        /\ match deleteAnalysis with
           | Some f =>
               match f analysisId (HistoryPage.context p) with
               | (Return _, w) =>
                   HistoryPage.context after = w
                   /\ HistoryPage.reloads after = S (HistoryPage.reloads p)
                   /\ HistoryPage.alerts after = HistoryPage.alerts p
               | (Throw _, w) => after = deleteFailed (HistoryPage.setContext w p)
               end
           | None => after = deleteFailed p
           end
      else after = p).
Proof.
  cbv zeta. unfold HistoryPage.handleDelete.
  destruct confirmed; [|split; reflexivity].
  unfold bind, tryFinally, tryCatch, HistoryPage.callDeleteAnalysis,
    HistoryPage.setDeletingId, HistoryPage.reload, HistoryPage.alert, zoom, throw.
  destruct deleteAnalysis as [f|]; [|repeat split].
  cbn [HistoryPage.context HistoryPage.currentPage HistoryPage.deletingId
       HistoryPage.alerts HistoryPage.reloads].
  destruct (f analysisId (HistoryPage.context p)) as [[v|e] w]; repeat split.
Qed.

(** X15. Under the provider, deleting from the history page cannot work: the
    context's value has no deleteAnalysis, so a confirmed delete sends no
    request, never reloads, and always ends in the alert 'Failed to delete
    analysis. Please try again.', whatever the analysis and the network. *)
Theorem handleDelete_in_context (confirmed : bool) (analysisId : string)
    (p : HistoryPage.Page AnalysisContext.World) :
  AnalysisContext.property (AnalysisContext.store (HistoryPage.context p))
                           "deleteAnalysis" = None
  /\ HistoryPageInContext.handleDelete confirmed analysisId p
     = (Return tt, if confirmed then deleteFailed p else p).
Proof.
  split; [reflexivity|].
  unfold HistoryPageInContext.handleDelete, HistoryPageInContext.deleteAnalysis.
  change (AnalysisContext.callable
            (AnalysisContext.property
               (AnalysisContext.store (HistoryPage.context p)) "deleteAnalysis"))
    with (@None (string -> eff AnalysisContext.World value)).
  destruct confirmed; reflexivity.
Qed.

(** ** components/DocumentUpload: file type and file upload *)

Section Extension.

Lemma split_not_nil (sep : ascii) (s : string) : split sep s <> [].
Proof.
  destruct s as [|c s]; cbn [split]; [discriminate|].
  destruct (Ascii.eqb c sep); [discriminate|].
  destruct (split sep s); discriminate.
Qed.

(** Splitting at a separator splits the parts. *)
Lemma split_app (sep : ascii) (s t : string) :
  split sep (s ++ String sep t) = (split sep s ++ split sep t)%list.
Proof.
  induction s as [|c s IH].
  - change (split sep (String sep t) = EmptyString :: split sep t).
    cbn [split]. rewrite Ascii.eqb_refl. reflexivity.
  - change (split sep (String c (s ++ String sep t))
            = (split sep (String c s) ++ split sep t)%list).
    cbn [split]. destruct (Ascii.eqb c sep).
    + rewrite IH. reflexivity.
    + rewrite IH. pose proof (split_not_nil sep s) as Hs.
      destruct (split sep s) as [|seg rest]; [contradiction|reflexivity].
Qed.

Lemma split_noDot (s : string) : noDot s = true -> split "." s = [s].
Proof.
  induction s as [|c s IH]; [reflexivity|]. cbn [noDot split].
  intros [Hc Hs]%andb_true_iff. apply negb_true_iff in Hc.
  rewrite Hc, (IH Hs). reflexivity.
Qed.

End Extension.

(** X16. The type check looks at the text after the last dot only, in lower
    case: for a name [stem.ext] the extension is ['.' + ext] lowered,
    whatever dots [stem] has, and for a name without any dot the whole name
    is taken as its extension. *)
Theorem fileExtension_last_segment (stem ext : string) (size : Z) :
  noDot ext = true ->
  DocumentUpload.fileExtension
    {| DocumentUpload.name := stem ++ "." ++ ext; DocumentUpload.size := size |}
  = "." ++ toLowerCase ext
  /\ DocumentUpload.fileExtension
       {| DocumentUpload.name := ext; DocumentUpload.size := size |}
     = "." ++ toLowerCase ext.
Proof.
  intros H. unfold DocumentUpload.fileExtension, pop.
  cbn [DocumentUpload.name]. split.
  - change (stem ++ "." ++ ext) with (stem ++ String "." ext).
    rewrite split_app, (split_noDot ext H), last_snoc. reflexivity.
  - rewrite (split_noDot ext H). reflexivity.
Qed.

Lemma fileExtension_last_segment_witness :
  noDot "PDF" = true
  /\ DocumentUpload.fileExtension (fileNamed "my.resume.v2.PDF") = ".pdf"
  /\ DocumentUpload.selectedFile
       (DocumentUpload.handleFile AnalysisPage.resumeAcceptedTypes
          (fileNamed "PDF") (emptyComponent tt))
     = Some (fileNamed "PDF").
Proof.
  split; [reflexivity|]. split.
  - exact (proj1 (fileExtension_last_segment "my.resume.v2" "PDF" 1024 eq_refl)).
  - reflexivity.
Defined.

(** X17. Upload File does nothing without a selected file.  With one it
    calls onFileUpload once, on that file, and never throws: when the upload
    completes the selection is cleared, and when it throws the file stays
    selected; no alert is raised either way. *)
Theorem handleFileUpload_outcome {W} (onFileUpload : DocumentUpload.File -> eff W value)
    (c : DocumentUpload.Component W) :
  let after := (DocumentUpload.handleFileUpload onFileUpload c).2 in
  (DocumentUpload.handleFileUpload onFileUpload c).1 = Return tt
  /\ DocumentUpload.alerts after = DocumentUpload.alerts c
  /\ DocumentUpload.textInput after = DocumentUpload.textInput c
  /\ match DocumentUpload.selectedFile c with
     | None => after = c
     | Some file =>
         DocumentUpload.parent after = (onFileUpload file (DocumentUpload.parent c)).2
         /\ DocumentUpload.selectedFile after
            = match (onFileUpload file (DocumentUpload.parent c)).1 with
              | Return _ => None
              | Throw _ => Some file
              end
     end.
Proof.
  cbv zeta. unfold DocumentUpload.handleFileUpload.
  destruct (DocumentUpload.selectedFile c) as [file|] eqn:Hsel;
    [|repeat split].
  unfold tryCatch, bind, zoom, ret.
  destruct (onFileUpload file (DocumentUpload.parent c)) as [[v|e] w];
    cbn; rewrite ?Hsel; repeat split.
Qed.

(** X18. A file that fails the checks is never uploaded: from a component
    with nothing selected, offering a file and pressing Upload File calls
    onFileUpload exactly when the file's extension is accepted and its size
    is within the cap, and otherwise leaves the parent's world untouched. *)
Theorem rejected_file_not_uploaded {W} (acceptedTypes : list string)
    (onFileUpload : DocumentUpload.File -> eff W value)
    (file : DocumentUpload.File) (c : DocumentUpload.Component W) :
  DocumentUpload.selectedFile c = None ->
  DocumentUpload.parent
    (DocumentUpload.handleFileUpload onFileUpload
       (DocumentUpload.handleFile acceptedTypes file c)).2
  = if includes acceptedTypes (DocumentUpload.fileExtension file)
       && (DocumentUpload.size file <=? DocumentUpload.maxSize acceptedTypes)%Z
    then (onFileUpload file (DocumentUpload.parent c)).2
    else DocumentUpload.parent c.
Proof.
  intros Hsel. unfold DocumentUpload.handleFile.
  destruct (includes acceptedTypes (DocumentUpload.fileExtension file));
    cbn [negb andb].
  - rewrite Z.gtb_ltb, Z.ltb_antisym.
    destruct (DocumentUpload.size file <=? DocumentUpload.maxSize acceptedTypes)%Z;
      cbn [negb].
    + unfold DocumentUpload.handleFileUpload, DocumentUpload.setSelectedFile,
        tryCatch, bind, zoom, ret.
      cbn [DocumentUpload.selectedFile DocumentUpload.parent].
      destruct (onFileUpload file (DocumentUpload.parent c)) as [[v|e] w];
        reflexivity.
    + unfold DocumentUpload.handleFileUpload, DocumentUpload.alert.
      cbn [DocumentUpload.selectedFile]. rewrite Hsel. reflexivity.
  - unfold DocumentUpload.handleFileUpload, DocumentUpload.alert.
    cbn [DocumentUpload.selectedFile]. rewrite Hsel. reflexivity.
Qed.

Lemma rejected_file_not_uploaded_witness :
  DocumentUpload.selectedFile (emptyComponent ([] : list string)) = None
  /\ DocumentUpload.parent
       (DocumentUpload.handleFileUpload
          (fun file log => (Return VUndefined,
                            (log ++ [DocumentUpload.name file])%list))
          (DocumentUpload.handleFile AnalysisPage.resumeAcceptedTypes
             (fileNamed "resume.txt") (emptyComponent []))).2
     = [].
Proof.
  split; [reflexivity|].
  exact (rejected_file_not_uploaded AnalysisPage.resumeAcceptedTypes
           (fun file log => (Return VUndefined,
                             (log ++ [DocumentUpload.name file])%list))
           (fileNamed "resume.txt") (emptyComponent []) eq_refl).
Defined.

(** ** components/SkillGapChart: the chart data *)

Section ChartOrder.

Lemma byImportance_le (x y : SkillGapChart.ChartDatum) :
  (byImportance x y <=? 0)%Z = true <-> noLessImportant x y.
Proof. unfold byImportance, noLessImportant. rewrite Z.leb_le. lia. Qed.

Lemma insertBy_sorted (x : SkillGapChart.ChartDatum)
    (l : list SkillGapChart.ChartDatum) :
  StronglySorted noLessImportant l ->
  StronglySorted noLessImportant (insertBy byImportance x l).
Proof.
  induction 1 as [|y l Hl IH Hy]; cbn [insertBy].
  - repeat constructor.
  - destruct (byImportance x y <=? 0)%Z eqn:E.
    + apply byImportance_le in E. constructor; [constructor; assumption|].
      constructor; [exact E|].
      eapply Forall_impl; [exact Hy|].
      unfold noLessImportant in *. intros z Hz. lia.
    + constructor; [exact IH|].
      rewrite insertBy_Permutation. constructor; [|exact Hy].
      unfold noLessImportant, byImportance in *.
      apply Z.leb_gt in E. lia.
Qed.

Lemma sort_sorted (l : list SkillGapChart.ChartDatum) :
  StronglySorted noLessImportant (sort byImportance l).
Proof.
  induction l as [|x l IH]; [constructor|].
  unfold sort in *. cbn [foldr]. apply insertBy_sorted, IH.
Qed.

Lemma sorted_take (n : nat) (l : list SkillGapChart.ChartDatum) :
  StronglySorted noLessImportant l ->
  StronglySorted noLessImportant (take n l).
Proof.
  intros H. revert n. induction H as [|x l Hl IH Hx]; intros [|n];
    cbn [take]; try constructor; [apply IH | apply Forall_take, Hx].
Qed.

Lemma sorted_app (l1 l2 : list SkillGapChart.ChartDatum) :
  StronglySorted noLessImportant (l1 ++ l2) ->
  Forall (fun x => Forall (noLessImportant x) l2) l1.
Proof.
  induction l1 as [|x l1 IH]; [constructor|].
  cbn [app]. intros H. apply StronglySorted_inv in H as [Hs Hx].
  constructor; [|apply IH, Hs].
  apply Forall_app in Hx as [_ Hx]. exact Hx.
Qed.

(** A row no less important than every row of a list goes to its front. *)
Lemma insertBy_front (x : SkillGapChart.ChartDatum)
    (l : list SkillGapChart.ChartDatum) :
  Forall (noLessImportant x) l -> insertBy byImportance x l = x :: l.
Proof.
  destruct 1 as [|y l Hy _]; [reflexivity|]. cbn [insertBy].
  apply byImportance_le in Hy. rewrite Hy. reflexivity.
Qed.

Lemma sort_front (front rest : list SkillGapChart.ChartDatum) :
  Forall (fun x => SkillGapChart.importance x = 100%Z) front ->
  Forall (fun y => (SkillGapChart.importance y <= 100)%Z) rest ->
  sort byImportance (front ++ rest) = (front ++ sort byImportance rest)%list.
Proof.
  intros Hfront Hrest. induction Hfront as [|x front Hx Hfront IH]; [reflexivity|].
  unfold sort in *. cbn [app foldr]. rewrite IH.
  apply insertBy_front. apply Forall_app. split.
  - eapply Forall_impl; [exact Hfront|]. unfold noLessImportant.
    intros y Hy. cbv beta in Hy. lia.
  - fold (sort byImportance rest). rewrite sort_Permutation.
    eapply Forall_impl; [exact Hrest|]. unfold noLessImportant.
    intros y Hy. cbv beta in Hy. lia.
Qed.

End ChartOrder.

Section Doubles.

Lemma pow2_pos (e : Z) : (0 < pow2 e)%Q.
Proof.
  unfold pow2. destruct (Z.leb_spec 0 e) as [He|He].
  - change 0%Q with (inject_Z 0). rewrite <- Zlt_Qlt.
    apply Z.pow_pos_nonneg; lia.
  - reflexivity.
Qed.

(** Dividing an integer by a power of two of exponent at most 0 gives an
    integer. *)
Lemma div_pow2_integer (B e : Z) :
  (e <= 0)%Z -> (inject_Z B / pow2 e == inject_Z (B * 2 ^ (- e)))%Q.
Proof.
  intros He. unfold pow2. destruct (Z.leb_spec 0 e) as [H0|H0].
  - replace e with 0%Z by lia.
    change (2 ^ 0)%Z with 1%Z. change (2 ^ (- 0))%Z with 1%Z.
    unfold Qeq, Qdiv, Qmult, Qinv, inject_Z. cbn. lia.
  - assert (Hp : (0 < 2 ^ (- e))%Z) by (apply Z.pow_pos_nonneg; lia).
    destruct (2 ^ (- e))%Z as [|p|p] eqn:E; try lia.
    unfold Qeq, Qdiv, Qmult, Qinv, inject_Z. cbn. lia.
Qed.

Lemma ilog2_le (q : Q) (k : Z) :
  (0 < q)%Q -> (q <= inject_Z (2 ^ k))%Q -> (0 <= k)%Z -> (ilog2 q <= k)%Z.
Proof.
  intros Hq Hk H0.
  assert (Ht : (Z.log2 (Qnum q) - Z.log2 (Zpos (Qden q)) <= k)%Z).
  { unfold Qlt in Hq. unfold Qle in Hk. cbn in Hq, Hk.
    assert (Hle : (Z.log2 (Qnum q) <= Z.log2 (Z.pos (Qden q) * 2 ^ k))%Z)
      by (apply Z.log2_le_mono; lia).
    rewrite Z.log2_mul_pow2 in Hle by lia. lia. }
  unfold ilog2. destruct (Qle_bool _ q); lia.
Qed.

Lemma roundHalfEven_nonneg (s : Q) : (0 <= s)%Q -> (0 <= roundHalfEven s)%Z.
Proof.
  intros Hs. assert (Hf : (0 <= Qfloor s)%Z).
  { change 0%Z with (Qfloor 0). apply Qfloor_resp_le, Hs. }
  unfold roundHalfEven. destruct (Qcompare _ _); [destruct (Z.even _)| |]; lia.
Qed.

Lemma roundHalfEven_le (s : Q) (N : Z) :
  (s <= inject_Z N)%Q -> (roundHalfEven s <= N)%Z.
Proof.
  intros Hs. assert (Hf : (Qfloor s <= N)%Z).
  { rewrite <- (Qfloor_Z N). apply Qfloor_resp_le, Hs. }
  assert (Hup : (1 # 2 <= s - inject_Z (Qfloor s))%Q -> (Qfloor s + 1 <= N)%Z).
  { intros Hhalf. assert (Hlt : (inject_Z (Qfloor s) < inject_Z N)%Q) by lra.
    rewrite <- Zlt_Qlt in Hlt. lia. }
  unfold roundHalfEven.
  destruct (Qcompare _ _) eqn:E; [destruct (Z.even _)| |]; try exact Hf.
  - apply Hup. apply Qeq_alt in E. rewrite E. apply Qle_refl.
  - apply Hup. apply Qgt_alt in E. apply Qlt_le_weak, E.
Qed.

Lemma roundPos_bounds (q : Q) (B : Z) :
  (0 < q)%Q -> (q <= inject_Z B)%Q -> (B <= 2 ^ 52)%Z ->
  (0 <= roundPos q <= inject_Z B)%Q.
Proof.
  intros Hq HB H52. unfold roundPos.
  set (e := Z.max (ilog2 q - 52) (-1074)).
  assert (He : (e <= 0)%Z).
  { assert (ilog2 q <= 52)%Z; [|lia].
    apply ilog2_le; [exact Hq| |lia].
    apply Qle_trans with (1 := HB). rewrite <- Zle_Qle. exact H52. }
  pose proof (pow2_pos e) as Hpos.
  set (s := (q / pow2 e)%Q).
  assert (Hs0 : (0 <= s)%Q).
  { subst s. apply Qle_shift_div_l; [exact Hpos|]. lra. }
  assert (HsN : (s <= inject_Z (B * 2 ^ (- e)))%Q).
  { rewrite <- (div_pow2_integer B e He). subst s.
    apply Qle_shift_div_l; [exact Hpos|].
    unfold Qdiv. rewrite <- Qmult_assoc, (Qmult_comm (/ pow2 e)), Qmult_inv_r
      by (intros E; rewrite E in Hpos; discriminate Hpos).
    lra. }
  apply roundHalfEven_nonneg in Hs0. apply roundHalfEven_le in HsN.
  rewrite Qred_correct.
  rewrite Zle_Qle in Hs0, HsN.
  rewrite <- (div_pow2_integer B e He) in HsN.
  split.
  - apply Qmult_le_0_compat; [exact Hs0|apply Qlt_le_weak, Hpos].
  - apply Qmult_le_compat_r with (z := pow2 e) in HsN;
      [|apply Qlt_le_weak, Hpos].
    rewrite (Qmult_comm (inject_Z B / pow2 e)), Qmult_div_r in HsN
      by (intros E; rewrite E in Hpos; discriminate Hpos).
    exact HsN.
Qed.

Lemma round64_bounds (q : Q) (B : Z) :
  (0 <= q)%Q -> (q <= inject_Z B)%Q -> (B <= 2 ^ 52)%Z ->
  exists v, round64 q = Fin v /\ (0 <= v <= inject_Z B)%Q.
Proof.
  intros Hq HB H52. unfold round64. destruct (Qcompare q 0) eqn:E.
  - exists 0%Q. split; [reflexivity|]. split; [apply Qle_refl|].
    apply Qle_trans with (1 := Hq), HB.
  - apply Qlt_alt in E. exfalso. apply (Qlt_not_le _ _ E), Hq.
  - apply Qgt_alt in E. pose proof (roundPos_bounds q B E HB H52) as Hv.
    exists (roundPos q). split; [|exact Hv]. cbv zeta.
    destruct (Qle_bool (pow2 1024) (roundPos q)) eqn:Ho; [|reflexivity].
    apply Qle_bool_iff in Ho. exfalso.
    assert (Hlt : (inject_Z B < pow2 1024)%Q).
    { change (pow2 1024) with (inject_Z (2 ^ 1024)). rewrite <- Zlt_Qlt.
      apply Z.le_lt_trans with (1 := H52). apply Z.pow_lt_mono_r; lia. }
    apply (Qlt_not_le _ _ Hlt). apply Qle_trans with (1 := Ho), Hv.
Qed.

(** [Math.round(x * 100)] of a weight between 0 and 1 is a percentage. *)
Lemma percent_bounds (x : Q) : (0 <= x <= 1)%Q -> (0 <= SkillGapChart.percent x <= 100)%Z.
Proof.
  intros [H0 H1]. unfold SkillGapChart.percent, SkillGapChart.double.
  destruct (round64_bounds x 1 H0 H1 ltac:(lia)) as (v & -> & Hv0 & Hv1).
  cbn [mul lit].
  destruct (round64_bounds (v * inject_Z 100) 100) as (u & -> & Hu0 & Hu1).
  - apply Qmult_le_0_compat; [exact Hv0|discriminate].
  - change (inject_Z 1) with 1%Q in Hv1. change (inject_Z 100) with 100%Q. lra.
  - lia.
  - cbn [Math_round SkillGapChart.integer]. rewrite Qfloor_Z.
    change (inject_Z 100) with 100%Q in Hu1.
    assert (Hlo : (Qfloor (1 # 2) <= Qfloor (u + (1 # 2)))%Z)
      by (apply Qfloor_resp_le; lra).
    assert (Hhi : (Qfloor (u + (1 # 2)) <= Qfloor (100 + (1 # 2)))%Z)
      by (apply Qfloor_resp_le; lra).
    change (Qfloor (1 # 2)) with 0%Z in Hlo.
    change (Qfloor (100 + (1 # 2))) with 100%Z in Hhi. lia.
Qed.

(** The percentage is taken of the double the weight is read to, and of the
    double of the product.  0.285 gives 28: the product of the doubles is
    28.499999999999996, where the product of the decimals is 28.5.  0.015
    gives 2: the product of the doubles is 1.5, although the double of 0.015
    lies below 0.015. *)
Lemma percent_of_doubles :
  SkillGapChart.percent (285 # 1000) = 28%Z
  /\ SkillGapChart.percent (15 # 1000) = 2%Z
  /\ SkillGapChart.percent (1 # 2) = 50%Z
  /\ SkillGapChart.percent 1 = 100%Z.
Proof. vm_compute. repeat split. Qed.

End Doubles.

Section ChartData.

Lemma prepareChartData_sorted_rows (analysis : SkillGapChart.Analysis) :
  SkillGapChart.prepareChartData analysis
  = take 15 (sort byImportance (SkillGapChart.chartRows analysis)).
Proof. reflexivity. Qed.

Lemma chartRows_length (analysis : SkillGapChart.Analysis) :
  length (SkillGapChart.chartRows analysis)
  = length (SkillGapChart.matched_skills analysis)
    + length (SkillGapChart.missing_skills analysis)
    + length (SkillGapChart.nice_to_have_skills analysis).
Proof.
  unfold SkillGapChart.chartRows. rewrite !length_app, !length_map. lia.
Qed.

Lemma chartRows_percentages (analysis : SkillGapChart.Analysis) :
  unitWeights analysis ->
  Forall (fun x => (SkillGapChart.importance x = 100)%Z
                   /\ (0 <= SkillGapChart.confidence x <= 100)%Z)
         (map SkillGapChart.matchedDatum (SkillGapChart.matched_skills analysis))
  /\ Forall (fun x => (0 <= SkillGapChart.importance x <= 100)%Z
                      /\ SkillGapChart.confidence x = 0%Z)
            (gapRows analysis).
Proof.
  intros (Hm & Hmi & Hn). split.
  - apply Forall_map. eapply Forall_impl; [exact Hm|].
    intros skill H. split; [reflexivity|]. apply percent_bounds, H.
  - unfold gapRows. apply Forall_app. split; apply Forall_map;
      (eapply Forall_impl; [eassumption|]);
      intros skill H; (split; [|reflexivity]); apply percent_bounds, H.
Qed.

End ChartData.

(** X19. The chart shows the rows of greatest importance, in order: its data
    is sorted by importance, greatest first; it holds 15 rows, or all of
    them when the three lists have fewer; and every row left out is no more
    important than any row shown. *)
Theorem chart_top_rows (analysis : SkillGapChart.Analysis) :
  let data := SkillGapChart.prepareChartData analysis in
  StronglySorted noLessImportant data
  /\ length data
     = Nat.min 15 (length (SkillGapChart.matched_skills analysis)
                   + length (SkillGapChart.missing_skills analysis)
                   + length (SkillGapChart.nice_to_have_skills analysis))
  /\ exists dropped,
       (data ++ dropped)%list ≡ₚ SkillGapChart.chartRows analysis
       /\ Forall (fun shown => Forall (noLessImportant shown) dropped) data.
Proof.
  cbv zeta. rewrite prepareChartData_sorted_rows.
  set (sorted := sort byImportance (SkillGapChart.chartRows analysis)).
  assert (Hs : StronglySorted noLessImportant sorted) by apply sort_sorted.
  split; [apply sorted_take, Hs|]. split.
  - rewrite length_take. subst sorted.
    rewrite (Permutation_length (sort_Permutation _ _)), chartRows_length.
    reflexivity.
  - exists (drop 15 sorted). rewrite take_drop. split.
    + apply sort_Permutation.
    + apply sorted_app. rewrite take_drop. exact Hs.
Qed.

(** X20. The chart has no data, and 'No skills data available for
    visualization' is shown, exactly when the result has no matched, no
    missing and no nice-to-have skill. *)
Theorem chart_empty_iff (analysis : SkillGapChart.Analysis) :
  length (SkillGapChart.prepareChartData analysis) = 0
  <-> SkillGapChart.matched_skills analysis = []
      /\ SkillGapChart.missing_skills analysis = []
      /\ SkillGapChart.nice_to_have_skills analysis = [].
Proof.
  rewrite prepareChartData_sorted_rows, length_take,
    (Permutation_length (sort_Permutation _ _)), chartRows_length.
  destruct (SkillGapChart.matched_skills analysis),
    (SkillGapChart.missing_skills analysis),
    (SkillGapChart.nice_to_have_skills analysis); cbn [length];
    split; try (intros (? & ? & ?)); try discriminate; try lia; auto.
Qed.

(** X21. When the confidences and importances of the result lie in [0,1],
    every bar of the chart is a percentage: importance and confidence of
    each row are integers between 0 and 100. *)
Theorem chart_percentages (analysis : SkillGapChart.Analysis) :
  unitWeights analysis ->
  Forall (fun x => (0 <= SkillGapChart.importance x <= 100)%Z
                   /\ (0 <= SkillGapChart.confidence x <= 100)%Z)
         (SkillGapChart.prepareChartData analysis).
Proof.
  intros H. apply chartRows_percentages in H as [Hm Hg].
  rewrite prepareChartData_sorted_rows. apply Forall_take.
  rewrite sort_Permutation.
  change (SkillGapChart.chartRows analysis)
    with (map SkillGapChart.matchedDatum (SkillGapChart.matched_skills analysis)
          ++ gapRows analysis)%list.
  apply Forall_app. split; (eapply Forall_impl; [eassumption|]);
    cbv beta; intros x Hx; lia.
Qed.

Lemma crowdedAnalysis_unitWeights : unitWeights crowdedAnalysis.
Proof.
  unfold unitWeights, crowdedAnalysis.
  cbn [SkillGapChart.matched_skills SkillGapChart.missing_skills
       SkillGapChart.nice_to_have_skills].
  split; [|split]; [apply Forall_map, Forall_forall; intros i _ | | constructor].
  - cbn. split; discriminate.
  - repeat constructor; discriminate.
Defined.

Lemma chart_percentages_witness :
  unitWeights crowdedAnalysis
  /\ Forall (fun x => (0 <= SkillGapChart.importance x <= 100)%Z
                      /\ (0 <= SkillGapChart.confidence x <= 100)%Z)
            (SkillGapChart.prepareChartData crowdedAnalysis).
Proof.
  split; [exact crowdedAnalysis_unitWeights|].
  exact (chart_percentages crowdedAnalysis crowdedAnalysis_unitWeights).
Defined.

(** X22. Matched skills take the chart first.  When the confidences and
    importances lie in [0,1], the chart data is the matched skills in the
    order of the result, followed by the missing and nice-to-have skills by
    importance, cut to 15 rows: a result with 15 matched skills or more
    shows no gap at all, however important. *)
Theorem chart_matched_first (analysis : SkillGapChart.Analysis) :
  unitWeights analysis ->
  SkillGapChart.prepareChartData analysis
  = take 15 (map SkillGapChart.matchedDatum (SkillGapChart.matched_skills analysis)
             ++ sort byImportance (gapRows analysis)).
Proof.
  intros H. apply chartRows_percentages in H as [Hm Hg].
  rewrite prepareChartData_sorted_rows. f_equal.
  change (SkillGapChart.chartRows analysis)
    with (map SkillGapChart.matchedDatum (SkillGapChart.matched_skills analysis)
          ++ gapRows analysis)%list.
  apply sort_front.
  - eapply Forall_impl; [exact Hm|]. intros x [Hx _]. exact Hx.
  - eapply Forall_impl; [exact Hg|]. cbv beta. intros x [Hx _]. lia.
Qed.

Lemma chart_matched_first_witness :
  unitWeights crowdedAnalysis
  /\ map SkillGapChart.type (SkillGapChart.prepareChartData crowdedAnalysis)
     = repeat "matched" 15.
Proof.
  split; [exact crowdedAnalysis_unitWeights|].
  rewrite (chart_matched_first crowdedAnalysis crowdedAnalysis_unitWeights).
  reflexivity.
Defined.
